(** * DriveLedger: the ledger aggregation and accounting engine of [main.py]

    A shallow embedding of the session store, the inventory operations
    ([add_vehicle], [sell_vehicle], [add_expense]), the monthly aggregator
    ([month_key_from_iso], [monthly_aggregation_for_year],
    [totals_from_monthly]) and the financial summary, followed by the
    properties of the specification that concern them.

    Modelling conventions.
    - Python [int] is [Z].  Monetary amounts are Python [float]s in the
      source.  In the first part they are exact numbers ([money := Z]); what
      is stated there about amounts follows the order in which the code adds
      them.  The second part ([Ledger]) embeds the operations, the aggregator
      and the financial summary over any arithmetic, IEEE binary64 included,
      and carries the statements that depend on rounding, infinities or
      NaN.
    - [st.session_state] is the record [SessionState]; every operation takes the
      state and returns the new one.
    - [datetime.utcnow()] reads a clock: the clock is the stream of its
      successive readings and each call consumes one.
    - [datetime.fromisoformat] and [datetime.isoformat] are library functions;
      the development is parametric in them and a concrete pair for the format
      [YYYY-MM-DDTHH:MM:SS[.ffffff]] is supplied for the examples.
    - [st.success] / [st.error] are the value of type [notice] an operation
      returns. *)

From Stdlib Require Import ZArith List String Ascii Bool Lia DecimalString Sorted
  Floats.
Import ListNotations.
Local Open Scope Z_scope.

(** ** Strings *)

(** [str.isspace] on the ASCII range: TAB..CR, FS..US and the blank. *)
Definition isspace (a : ascii) : bool :=
  let n := Z.of_nat (nat_of_ascii a) in
  ((9 <=? n) && (n <=? 13)) || ((28 <=? n) && (n <=? 32)).

Fixpoint lstrip (s : string) : string :=
  match s with
  | EmptyString => EmptyString
  | String a r => if isspace a then lstrip r else s
  end.

Fixpoint rstrip (s : string) : string :=
  match s with
  | EmptyString => EmptyString
  | String a r =>
      match rstrip r with
      | EmptyString => if isspace a then EmptyString else String a EmptyString
      | r' => String a r'
      end
  end.

(** [str.strip()] *)
Definition strip (s : string) : string := rstrip (lstrip s).

(** Truth value of a Python string: [not s] holds exactly for the empty one. *)
Definition py_not (s : string) : bool :=
  match s with
  | EmptyString => true
  | String _ _ => false
  end.

(** [str(n)] / [{n}] in an f-string, for an integer. *)
Definition str_of_int (n : Z) : string := NilZero.string_of_int (Z.to_int n).

(** ** Dates and the clock *)

Definition is_leap (y : Z) : bool :=
  ((y mod 4 =? 0) && negb (y mod 100 =? 0)) || (y mod 400 =? 0).

Definition days_in_month (y m : Z) : Z :=
  if m =? 2 then (if is_leap y then 29 else 28)
  else if (m =? 4) || (m =? 6) || (m =? 9) || (m =? 11) then 30
  else 31.

(** The ranges a Python [datetime] object guarantees for its fields. *)
Definition valid_datetime (y mo d h mi s us : Z) : bool :=
  (1 <=? y) && (y <=? 9999) && (1 <=? mo) && (mo <=? 12)
  && (1 <=? d) && (d <=? days_in_month y mo)
  && (0 <=? h) && (h <? 24) && (0 <=? mi) && (mi <? 60)
  && (0 <=? s) && (s <? 60) && (0 <=? us) && (us <? 1000000).

Module datetime.
Record t := mk {
  year : Z;
  month : Z;
  day : Z;
  hour : Z;
  minute : Z;
  second : Z;
  microsecond : Z;
  valid : valid_datetime year month day hour minute second microsecond = true
}.
End datetime.

(** Builds a [datetime] when the fields are in range ([ValueError] otherwise). *)
Definition make_datetime (y mo d h mi s us : Z) : option datetime.t :=
  match valid_datetime y mo d h mi s us as b
        return valid_datetime y mo d h mi s us = b -> option datetime.t with
  | true => fun H => Some (datetime.mk y mo d h mi s us H)
  | false => fun _ => None
  end eq_refl.

(** The successive readings of the system clock. *)
Definition clock := nat -> datetime.t.

(** [datetime.utcnow()]: the next reading, and the clock after it. *)
Definition utcnow (c : clock) : datetime.t * clock :=
  (c 0%nat, fun n => c (S n)).

(** ** Records *)

Definition money := Z.

Module Vehicle.
Record t := mk {
  id : Z;
  brand : string;
  model : string;
  year : Z;
  purchase_price : money;
  expected_sell_price : money;
  date_added : string
}.
End Vehicle.

Module SaleRecord.
Record t := mk {
  sale_id : Z;
  vehicle_id : Z;
  customer_name : string;
  sale_price : money;
  date : string
}.
End SaleRecord.

Module ExpenseRecord.
Record t := mk {
  expense_id : Z;
  description : string;
  amount : money;
  date : string
}.
End ExpenseRecord.

(** The dicts [{"amount": ..., "date": ...}] of [purchase_history]. *)
Module PurchaseEvent.
Record t := mk {
  amount : money;
  date : string
}.
End PurchaseEvent.

(** ** The session store *)

(** [st.session_state] once [init_state] has run.  [total_other_expenses] is
    the one key [init_state] does not create: it is absent until the first
    [add_expense]. *)
Record SessionState := mkState {
  inventory : list Vehicle.t;
  sales : list SaleRecord.t;
  expenses : list ExpenseRecord.t;
  purchase_history : list PurchaseEvent.t;
  next_vehicle_id : Z;
  next_sale_id : Z;
  next_expense_id : Z;
  cumulative_purchase_cost : money;
  total_other_expenses : option money
}.

(** A session store in which any key may still be missing. *)
Record RawSession := mkRaw {
  raw_inventory : option (list Vehicle.t);
  raw_sales : option (list SaleRecord.t);
  raw_expenses : option (list ExpenseRecord.t);
  raw_purchase_history : option (list PurchaseEvent.t);
  raw_next_vehicle_id : option Z;
  raw_next_sale_id : option Z;
  raw_next_expense_id : option Z;
  raw_cumulative_purchase_cost : option money;
  raw_total_other_expenses : option money
}.

Definition setdefault {A : Type} (o : option A) (d : A) : A :=
  match o with
  | Some x => x
  | None => d
  end.

(** [init_state]: every missing key gets its initial value, present keys are
    left alone. *)
Definition init_state (r : RawSession) : SessionState :=
  {| inventory := setdefault (raw_inventory r) [];
     sales := setdefault (raw_sales r) [];
     expenses := setdefault (raw_expenses r) [];
     purchase_history := setdefault (raw_purchase_history r) [];
     next_vehicle_id := setdefault (raw_next_vehicle_id r) 1;
     next_sale_id := setdefault (raw_next_sale_id r) 1;
     next_expense_id := setdefault (raw_next_expense_id r) 1;
     cumulative_purchase_cost := setdefault (raw_cumulative_purchase_cost r) 0;
     total_other_expenses := raw_total_other_expenses r |}.

(** The store of a session that has just started. *)
Definition empty_session : RawSession :=
  mkRaw None None None None None None None None None.

Definition initial_state : SessionState := init_state empty_session.

(** The store as the next script run finds it. *)
Definition stored (s : SessionState) : RawSession :=
  {| raw_inventory := Some (inventory s);
     raw_sales := Some (sales s);
     raw_expenses := Some (expenses s);
     raw_purchase_history := Some (purchase_history s);
     raw_next_vehicle_id := Some (next_vehicle_id s);
     raw_next_sale_id := Some (next_sale_id s);
     raw_next_expense_id := Some (next_expense_id s);
     raw_cumulative_purchase_cost := Some (cumulative_purchase_cost s);
     raw_total_other_expenses := total_other_expenses s |}.

(** What an operation shows to the user. *)
Inductive notice :=
| st_success (msg : string)
| st_error (msg : string)
| st_info (msg : string).

Definition is_success (n : notice) : bool :=
  match n with
  | st_success _ => true
  | _ => false
  end.

(** ** Inventory look-up and removal *)

Fixpoint find_in (vid : Z) (inv : list Vehicle.t) : option Vehicle.t :=
  match inv with
  | [] => None
  | v :: rest => if Vehicle.id v =? vid then Some v else find_in vid rest
  end.

Definition find_vehicle_by_id (vid : Z) (s : SessionState) : option Vehicle.t :=
  find_in vid (inventory s).

(** [remove_vehicle_by_id]: pops the first vehicle with that id and tells
    whether there was one. *)
Fixpoint remove_vehicle_by_id (vid : Z) (inv : list Vehicle.t)
  : bool * list Vehicle.t :=
  match inv with
  | [] => (false, [])
  | v :: rest =>
      if Vehicle.id v =? vid then (true, rest)
      else let (removed, rest') := remove_vehicle_by_id vid rest in
           (removed, v :: rest')
  end.

(** ** Python lists of numbers *)

(** The builtin [sum]: starts from 0 and adds from the left. *)
Definition py_sum (l : list money) : money := fold_left Z.add l 0.

Fixpoint list_alter {A : Type} (f : A -> A) (i : nat) (l : list A) : list A :=
  match l, i with
  | [], _ => []
  | x :: r, O => f x :: r
  | x :: r, S j => x :: list_alter f j r
  end.

(** [l[i] += x]: a negative index counts from the end, an index outside the
    list raises [IndexError] ([None]). *)
Definition list_iadd (l : list money) (i : Z) (x : money) : option (list money) :=
  let n := Z.of_nat (List.length l) in
  let j := if i <? 0 then i + n else i in
  if (0 <=? j) && (j <? n)
  then Some (list_alter (fun y => y + x) (Z.to_nat j) l)
  else None.

(** ** The datetime library *)

(** The two functions of Python's [datetime] the program calls on strings.
    They are not part of the program: everything below is stated for an
    arbitrary pair. *)
Class DatetimeLib := {
  fromisoformat : string -> option datetime.t;
  isoformat : datetime.t -> string
}.

(** A concrete pair for the examples: the output format of [isoformat()],
    [YYYY-MM-DDTHH:MM:SS] with [.ffffff] appended when the microsecond is not
    zero, and a reader that accepts exactly that format (Python's reader
    accepts it too, and more). *)
Definition digit_char (n : Z) : ascii := ascii_of_nat (48 + Z.to_nat n).

Fixpoint zero_pad (width : nat) (n : Z) : string :=
  match width with
  | O => EmptyString
  | S w => append (zero_pad w (n / 10)) (String (digit_char (n mod 10)) EmptyString)
  end.

Definition format_iso (dt : datetime.t) : string :=
  String.concat EmptyString
    [ zero_pad 4 (datetime.year dt); "-"%string;
      zero_pad 2 (datetime.month dt); "-"%string;
      zero_pad 2 (datetime.day dt); "T"%string;
      zero_pad 2 (datetime.hour dt); ":"%string;
      zero_pad 2 (datetime.minute dt); ":"%string;
      zero_pad 2 (datetime.second dt);
      if datetime.microsecond dt =? 0 then EmptyString
      else append "." (zero_pad 6 (datetime.microsecond dt)) ].

Definition digit_value (a : ascii) : option Z :=
  let n := Z.of_nat (nat_of_ascii a) in
  if (48 <=? n) && (n <=? 57) then Some (n - 48) else None.

Fixpoint read_digits (width : nat) (acc : Z) (s : string) : option (Z * string) :=
  match width with
  | O => Some (acc, s)
  | S w =>
      match s with
      | EmptyString => None
      | String a r =>
          match digit_value a with
          | Some d => read_digits w (10 * acc + d) r
          | None => None
          end
      end
  end.

Definition expect_char (a : ascii) (s : string) : option string :=
  match s with
  | EmptyString => None
  | String b r => if Ascii.eqb a b then Some r else None
  end.

Definition bind_opt {A B : Type} (o : option A) (k : A -> option B) : option B :=
  match o with
  | Some x => k x
  | None => None
  end.

Notation "' p <- e ;; k" := (bind_opt e (fun p => k))
  (at level 61, p pattern, e at next level, right associativity).
Notation "x <- e ;; k" := (bind_opt e (fun x => k))
  (at level 61, e at next level, right associativity).

Definition parse_iso (s : string) : option datetime.t :=
  '(y, s) <- read_digits 4 0 s ;;
  s <- expect_char "-" s ;;
  '(mo, s) <- read_digits 2 0 s ;;
  s <- expect_char "-" s ;;
  '(d, s) <- read_digits 2 0 s ;;
  s <- expect_char "T" s ;;
  '(h, s) <- read_digits 2 0 s ;;
  s <- expect_char ":" s ;;
  '(mi, s) <- read_digits 2 0 s ;;
  s <- expect_char ":" s ;;
  '(sec, s) <- read_digits 2 0 s ;;
  match s with
  | EmptyString => make_datetime y mo d h mi sec 0
  | _ =>
      s <- expect_char "." s ;;
      '(us, s) <- read_digits 6 0 s ;;
      match s with
      | EmptyString => make_datetime y mo d h mi sec us
      | _ => None
      end
  end.

Definition py_datetime : DatetimeLib :=
  {| fromisoformat := parse_iso; isoformat := format_iso |}.

(** ** Operations of the program *)

Section Model.

Context {lib : DatetimeLib}.

(** [add_vehicle]: the purchase prices come from a number widget and are
    already numbers, so [int(year)] and [float(...)] change nothing. *)
Definition add_vehicle (brand model : string) (year : Z)
    (purchase_price expected_sell_price : money)
    (s : SessionState) (c : clock) : SessionState * notice * clock :=
  let vid := next_vehicle_id s in
  let (now, c1) := utcnow c in
  let date_added := isoformat now in
  let v := Vehicle.mk vid (strip brand) (strip model) year
             purchase_price expected_sell_price date_added in
  ({| inventory := v :: inventory s;
      sales := sales s;
      expenses := expenses s;
      purchase_history :=
        purchase_history s ++ [PurchaseEvent.mk purchase_price date_added];
      next_vehicle_id := next_vehicle_id s + 1;
      next_sale_id := next_sale_id s;
      next_expense_id := next_expense_id s;
      cumulative_purchase_cost := cumulative_purchase_cost s + purchase_price;
      total_other_expenses := total_other_expenses s |},
   st_success (append "Vehicle added with ID: " (str_of_int vid)),
   c1).

(** [sell_vehicle], with the removal step as a parameter, both branches on
    what it reports written out; the program's own [sell_vehicle] below uses
    [remove_vehicle_by_id]. *)
Definition sell_vehicle_with
    (remove : Z -> list Vehicle.t -> bool * list Vehicle.t)
    (vid : Z) (customer_name : string) (sale_price : money)
    (s : SessionState) (c : clock) : SessionState * notice * clock :=
  match find_vehicle_by_id vid s with
  | None => (s, st_error "Vehicle ID not found in inventory.", c)
  | Some _ =>
      let sale_id := next_sale_id s in
      let (now, c1) := utcnow c in
      let rec := SaleRecord.mk sale_id vid (strip customer_name) sale_price
                   (isoformat now) in
      let (removed, inventory1) := remove vid (inventory s) in
      if removed then
        ({| inventory := inventory1;
            sales := sales s ++ [rec];
            expenses := expenses s;
            purchase_history := purchase_history s;
            next_vehicle_id := next_vehicle_id s;
            next_sale_id := next_sale_id s + 1;
            next_expense_id := next_expense_id s;
            cumulative_purchase_cost := cumulative_purchase_cost s;
            total_other_expenses := total_other_expenses s |},
         st_success (append "Vehicle ID " (append (str_of_int vid)
                      (append " sold. Sale ID: " (str_of_int sale_id)))),
         c1)
      else
        ({| inventory := inventory1;
            sales := sales s ++ [rec];
            expenses := expenses s;
            purchase_history := purchase_history s;
            next_vehicle_id := next_vehicle_id s;
            next_sale_id := next_sale_id s;
            next_expense_id := next_expense_id s;
            cumulative_purchase_cost := cumulative_purchase_cost s;
            total_other_expenses := total_other_expenses s |},
         st_error "Failed to remove vehicle from inventory (unexpected).",
         c1)
  end.

Definition sell_vehicle : Z -> string -> money -> SessionState -> clock ->
    SessionState * notice * clock :=
  sell_vehicle_with remove_vehicle_by_id.

Definition add_expense (description : string) (amount : money)
    (s : SessionState) (c : clock) : SessionState * notice * clock :=
  let eid := next_expense_id s in
  let (now, c1) := utcnow c in
  let rec := ExpenseRecord.mk eid (strip description) amount (isoformat now) in
  ({| inventory := inventory s;
      sales := sales s;
      expenses := expenses s ++ [rec];
      purchase_history := purchase_history s;
      next_vehicle_id := next_vehicle_id s;
      next_sale_id := next_sale_id s;
      next_expense_id := next_expense_id s + 1;
      cumulative_purchase_cost := cumulative_purchase_cost s;
      total_other_expenses :=
        Some (setdefault (total_other_expenses s) 0 + amount) |},
   st_success (append "Expense added with ID: " (str_of_int eid)),
   c1).

(** *** The forms that call them

    Each form handler is given whether the form was submitted and the values
    of its widgets; it returns the notice shown, if any. *)
Definition page_add_vehicle (submitted : bool) (brand model : string)
    (year : Z) (purchase_price expected_sell_price : money)
    (s : SessionState) (c : clock) : SessionState * option notice * clock :=
  if submitted then
    if py_not brand || py_not model then
      (s, Some (st_error "Brand and model cannot be empty."), c)
    else
      let '(s1, n, c1) :=
        add_vehicle brand model year purchase_price expected_sell_price s c in
      (s1, Some n, c1)
  else (s, None, c).

Definition page_sell_vehicle (submitted : bool) (vid : Z) (customer : string)
    (sale_price : money)
    (s : SessionState) (c : clock) : SessionState * option notice * clock :=
  if submitted then
    if py_not customer then (s, Some (st_error "Customer name required."), c)
    else
      let '(s1, n, c1) := sell_vehicle vid customer sale_price s c in
      (s1, Some n, c1)
  else (s, None, c).

(** The form of [page_expenses]. *)
Definition page_expenses (submitted : bool) (desc : string) (amount : money)
    (s : SessionState) (c : clock) : SessionState * option notice * clock :=
  if submitted then
    if py_not desc then (s, Some (st_error "Description required."), c)
    else
      let '(s1, n, c1) := add_expense desc amount s c in
      (s1, Some n, c1)
  else (s, None, c).

(** *** Aggregation for the dashboard *)

Definition month_key_from_iso (iso_dt : string) (c : clock) : (Z * Z) * clock :=
  match fromisoformat iso_dt with
  | Some dt => ((datetime.year dt, datetime.month dt), c)
  | None =>
      let (dt, c1) := utcnow c in
      ((datetime.year dt, datetime.month dt), c1)
  end.

(** One of the three loops of [monthly_aggregation_for_year]: every record
    whose month key has the selected year is added to its month's bucket. *)
Fixpoint accumulate {A : Type} (get_date : A -> string) (get_amount : A -> money)
    (year : Z) (records : list A) (months : list money) (c : clock)
    : option (list money * clock) :=
  match records with
  | [] => Some (months, c)
  | r :: rest =>
      let '((y, m), c1) := month_key_from_iso (get_date r) c in
      if y =? year then
        match list_iadd months (m - 1) (get_amount r) with
        | Some months1 => accumulate get_date get_amount year rest months1 c1
        | None => None
        end
      else accumulate get_date get_amount year rest months c1
  end.

(** Returns [(debit_month, credit_month)]; [None] stands for an [IndexError]
    escaping from a bucket update. *)
Definition monthly_aggregation_for_year (year : Z) (s : SessionState) (c : clock)
    : option ((list money * list money) * clock) :=
  let debit_month := repeat 0 12 in
  let credit_month := repeat 0 12 in
  '(credit_month, c1) <-
     accumulate SaleRecord.date SaleRecord.sale_price year (sales s)
       credit_month c ;;
  '(debit_month, c2) <-
     accumulate ExpenseRecord.date ExpenseRecord.amount year (expenses s)
       debit_month c1 ;;
  '(debit_month, c3) <-
     accumulate PurchaseEvent.date PurchaseEvent.amount year
       (purchase_history s) debit_month c2 ;;
  Some ((debit_month, credit_month), c3).

Definition totals_from_monthly (debit_month credit_month : list money)
    : money * money :=
  let total_debit := py_sum debit_month in
  let total_credit := py_sum credit_month in
  (total_debit, total_credit).



(** *** Financial summary *)

Record Summary := mkSummary {
  cum_purchase : money;
  revenue : money;
  other_expenses : money;
  profit : money;
  status : notice
}.

Definition page_financial_summary (s : SessionState) : Summary :=
  let cum_purchase := cumulative_purchase_cost s in
  let revenue := py_sum (map SaleRecord.sale_price (sales s)) in
  let expenses := py_sum (map ExpenseRecord.amount (expenses s)) in
  let profit := revenue - (cum_purchase + expenses) in
  mkSummary cum_purchase revenue expenses profit
    (if profit >? 0 then st_success "Status: PROFIT"
     else if profit <? 0 then st_error "Status: LOSS"
     else st_info "Status: BREAK-EVEN").

(** ** Sessions *)

(** What a user can do to the store. *)
Inductive action :=
| AddVehicle (brand model : string) (year : Z)
    (purchase_price expected_sell_price : money)
| SellVehicle (vid : Z) (customer_name : string) (sale_price : money)
| AddExpense (description : string) (amount : money).

Definition step (a : action) (s : SessionState) (c : clock)
    : SessionState * notice * clock :=
  match a with
  | AddVehicle b m y p e => add_vehicle b m y p e s c
  | SellVehicle v n p => sell_vehicle v n p s c
  | AddExpense d a => add_expense d a s c
  end.

Definition next_state (a : action) (s : SessionState) (c : clock) : SessionState :=
  fst (fst (step a s c)).

Fixpoint run (acts : list action) (s : SessionState) (c : clock)
    : SessionState * list notice * clock :=
  match acts with
  | [] => (s, [], c)
  | a :: rest =>
      let '(s1, n, c1) := step a s c in
      let '(s2, ns, c2) := run rest s1 c1 in
      (s2, n :: ns, c2)
  end.

(** The stores a session can be in: the initial one and whatever the three
    operations make of it, at any times. *)
Inductive reachable : SessionState -> Prop :=
| reachable_init : reachable initial_state
| reachable_step a s c : reachable s -> reachable (next_state a s c).

(** [later s s']: [s'] is [s] after zero or more further operations. *)
Inductive later : SessionState -> SessionState -> Prop :=
| later_refl s : later s s
| later_step a s s' c : later s s' -> later s (next_state a s' c).

End Model.

(** ** Vocabulary of the specification *)

Section Vocabulary.

Context {lib : DatetimeLib}.

(** The mathematical sum of a list of amounts. *)
Definition total (l : list money) : money := fold_right Z.add 0 l.

(** The calendar months, as [datetime.month] numbers them. *)
Definition month_numbers : list Z := [1; 2; 3; 4; 5; 6; 7; 8; 9; 10; 11; 12].

(** The bucket of month [m] in a list of twelve. *)
Definition bucket (l : list money) (m : Z) : money := nth (Z.to_nat (m - 1)) l 0.

(** The month keys a loop of the aggregator gives to the records it visits,
    in order, and the clock it leaves: a date that parses has its own year
    and month, one that does not takes those of the next clock reading. *)
Fixpoint month_keys (dates : list string) (c : clock) : list (Z * Z) * clock :=
  match dates with
  | [] => ([], c)
  | d :: rest =>
      let (k, c1) := month_key_from_iso d c in
      let (ks, c2) := month_keys rest c1 in
      (k :: ks, c2)
  end.

Definition in_month (year m : Z) (k : Z * Z) : bool :=
  (fst k =? year) && (snd k =? m).

(** The sum of the amounts whose month key is [(year, m)]. *)
Definition bucket_total (year m : Z) (keys : list (Z * Z)) (amounts : list money)
    : money :=
  total (map snd (filter (fun e => in_month year m (fst e)) (combine keys amounts))).

(** "The date parses to [(year, m)]". *)
Definition parses_to (year m : Z) (iso_dt : string) : bool :=
  match fromisoformat iso_dt with
  | Some dt => in_month year m (datetime.year dt, datetime.month dt)
  | None => false
  end.

(** The aggregates in the words of the specification: per month, the sale
    prices of the sales whose date parses to that month of the year, and the
    expense amounts plus the purchase amounts of those that do. *)
Definition credit_of_parsed (year : Z) (s : SessionState) (m : Z) : money :=
  total (map SaleRecord.sale_price
           (filter (fun r => parses_to year m (SaleRecord.date r)) (sales s))).

Definition debit_of_parsed (year : Z) (s : SessionState) (m : Z) : money :=
  total (map ExpenseRecord.amount
           (filter (fun r => parses_to year m (ExpenseRecord.date r)) (expenses s)))
  + total (map PurchaseEvent.amount
             (filter (fun r => parses_to year m (PurchaseEvent.date r))
                (purchase_history s))).

Definition aggregation_of_parsed (year : Z) (s : SessionState)
    : list money * list money :=
  (map (debit_of_parsed year s) month_numbers,
   map (credit_of_parsed year s) month_numbers).

Definition parses (iso_dt : string) : bool :=
  match fromisoformat iso_dt with
  | Some _ => true
  | None => false
  end.

(** Every date string of the store parses. *)
Definition dates_parse (s : SessionState) : bool :=
  forallb (fun r => parses (SaleRecord.date r)) (sales s)
  && forallb (fun r => parses (ExpenseRecord.date r)) (expenses s)
  && forallb (fun r => parses (PurchaseEvent.date r)) (purchase_history s).

(** The year and month of the [n]-th clock reading. *)
Definition clock_key (c : clock) (n : nat) : Z * Z :=
  (datetime.year (c n), datetime.month (c n)).

(** All readings of the clock fall in one calendar month. *)
Definition within_one_month (c : clock) : Prop :=
  forall n, clock_key c n = clock_key c 0%nat.

(** The month key of a date while the clock shows month [now]. *)
Definition month_key_at (now : Z * Z) (iso_dt : string) : Z * Z :=
  match fromisoformat iso_dt with
  | Some dt => (datetime.year dt, datetime.month dt)
  | None => now
  end.

(** Calling the aggregator twice in a row: the second call starts with the
    clock the first one left.  Returns both results. *)
Definition aggregate_twice (year : Z) (s : SessionState) (c : clock)
    : option ((list money * list money) * (list money * list money)) :=
  '(r1, c1) <- monthly_aggregation_for_year year s c ;;
  '(r2, _) <- monthly_aggregation_for_year year s c1 ;;
  Some (r1, r2).

(** The identifiers given to the vehicles a sequence of operations adds, in
    order: each is read off the vehicle [add_vehicle] has just put at the
    head of the inventory. *)
Fixpoint vehicle_ids_assigned (acts : list action) (s : SessionState) (c : clock)
    : list Z :=
  match acts with
  | [] => []
  | a :: rest =>
      let '(s1, _, c1) := step a s c in
      match a, inventory s1 with
      | AddVehicle _ _ _ _ _, v :: _ =>
          Vehicle.id v :: vehicle_ids_assigned rest s1 c1
      | _, _ => vehicle_ids_assigned rest s1 c1
      end
  end.

Definition stock_ids (s : SessionState) : list Z :=
  map Vehicle.id (inventory s).

Definition sold_ids (s : SessionState) : list Z :=
  map SaleRecord.vehicle_id (sales s).


(** What a consistent store satisfies: identifiers in stock are distinct, no
    vehicle is sold twice, none is both in stock and sold, and every
    identifier in use is below the next one to be given out. *)
Record store_ok (s : SessionState) : Prop := {
  ok_stock_nodup : NoDup (stock_ids s);
  ok_sold_nodup : NoDup (sold_ids s);
  ok_disjoint : forall i, In i (stock_ids s) -> ~ In i (sold_ids s);
  ok_stock_below : forall i, In i (stock_ids s) -> i < next_vehicle_id s;
  ok_sold_below : forall i, In i (sold_ids s) -> i < next_vehicle_id s
}.

(** The record [sell_vehicle] appends in store [s] at clock [c]. *)
Definition sale_of (s : SessionState) (c : clock) (vid : Z)
    (customer_name : string) (sale_price : money) : SaleRecord.t :=
  SaleRecord.mk (next_sale_id s) vid (strip customer_name) sale_price
    (isoformat (fst (utcnow c))).

End Vocabulary.

(** ** Sample data *)

Definition epoch : datetime.t := datetime.mk 1 1 1 0 0 0 0 eq_refl.

Definition at_time (y mo d h mi s : Z) : datetime.t :=
  setdefault (make_datetime y mo d h mi s 0) epoch.

(** A clock that shows the same instant at every reading. *)
Definition steady (dt : datetime.t) : clock := fun _ => dt.

(** A clock whose first readings are listed, and [dt] from then on. *)
Definition readings (l : list datetime.t) (dt : datetime.t) : clock :=
  fun n => nth n l dt.

(** The scenario of the specification: a vehicle is bought, sold, and an
    expense is recorded. *)
Definition scenario : list action :=
  [ AddVehicle "Toyota" "Corolla" 2020 10000 12000;
    SellVehicle 1 "Alice" 11000;
    AddExpense "Detailing" 150 ].

(** The store after the scenario, when midnight of 31 January 2024 passes
    right after the purchase. *)
Definition store_after_scenario : SessionState :=
  fst (fst (run (lib := py_datetime) scenario initial_state
              (readings [at_time 2024 1 31 23 59 59] (at_time 2024 2 1 0 0 0)))).

(** A store holding one sale whose date is not a date. *)
Definition undated_sale : SaleRecord.t :=
  SaleRecord.mk 1 1 "Alice" 5 "not-a-date".

Definition store_with_undated_sale : SessionState :=
  {| inventory := [];
     sales := [undated_sale];
     expenses := [];
     purchase_history := [];
     next_vehicle_id := 2;
     next_sale_id := 2;
     next_expense_id := 1;
     cumulative_purchase_cost := 0;
     total_other_expenses := None |}.

(** Midnight passes between the first reading and the second. *)
Definition over_midnight : clock :=
  readings [at_time 2024 1 31 23 59 59] (at_time 2024 2 1 0 0 0).

(** A clock stopped on 15 January 2024, 10:30. *)
Definition mid_january : clock := steady (at_time 2024 1 15 10 30 0).

(** A store with one vehicle in stock. *)
Definition corolla : Vehicle.t :=
  Vehicle.mk 1 "Toyota" "Corolla" 2020 10000 12000 "2024-01-15T10:30:00".

Definition store_with_corolla : SessionState :=
  {| inventory := [corolla];
     sales := [];
     expenses := [];
     purchase_history := [PurchaseEvent.mk 10000 "2024-01-15T10:30:00"];
     next_vehicle_id := 2;
     next_sale_id := 1;
     next_expense_id := 1;
     cumulative_purchase_cost := 10000;
     total_other_expenses := None |}.

(** Selling the Corolla to Alice, and what follows: another purchase and an
    expense. *)
Definition corolla_sale : SessionState * notice * clock :=
  sell_vehicle (lib := py_datetime) 1 "Alice" 11000 store_with_corolla
    mid_january.

Definition store_after_corolla_sale : SessionState :=
  fst (fst (run (lib := py_datetime)
              [ AddVehicle "Honda" "Civic" 2019 5000 6500;
                AddExpense "Detailing" 150 ]
              (fst (fst corolla_sale)) (snd corolla_sale))).

Definition more_purchases : list action :=
  [ AddVehicle "Honda" "Civic" 2019 5000 6500;
    SellVehicle 2 "Bob" 6000;
    AddVehicle "Ford" "Focus" 2018 7000 8000 ].

(** ** The dashboard page and the script run *)

Section Pages.

Context {lib : DatetimeLib}.

(** [sorted(list(set))] of a collection of years: the ascending list of its
    distinct members. *)
Fixpoint insert_year (y : Z) (l : list Z) : list Z :=
  match l with
  | [] => [y]
  | x :: r =>
      if y <? x then y :: l
      else if y =? x then l
      else x :: insert_year y r
  end.

Definition sorted_set (l : list Z) : list Z := fold_right insert_year [] l.

(** The options of the year selector of [dashboard_page]: the current year is
    read first, then the years of the purchase events, of the sales and of the
    expenses are collected, each through [month_key_from_iso]. *)
Definition years_available (s : SessionState) (c : clock) : list Z * clock :=
  let (now, c0) := utcnow c in
  let current_year := datetime.year now in
  let (kp, c1) := month_keys (map PurchaseEvent.date (purchase_history s)) c0 in
  let (ks, c2) := month_keys (map SaleRecord.date (sales s)) c1 in
  let (ke, c3) := month_keys (map ExpenseRecord.date (expenses s)) c2 in
  (sorted_set (map fst kp ++ map fst ks ++ map fst ke ++ [current_year]), c3).

(** The option the selector shows first: index [len - 1], that is the last
    one; nothing when there are no options. *)
Definition default_year (years : list Z) : option Z :=
  match years with
  | [] => None
  | _ :: _ => nth_error years (List.length years - 1)
  end.

(** [[credit_month[i] - debit_month[i] for i in range(12)]]; [None] stands
    for the [IndexError] of a list shorter than twelve. *)
Definition net_month (debit_month credit_month : list money)
    : option (list money) :=
  fold_right
    (fun i rest =>
       match nth_error credit_month i, nth_error debit_month i, rest with
       | Some cr, Some d, Some l => Some (cr - d :: l)
       | _, _, _ => None
       end)
    (Some []) (seq 0 12).

(** The numbers [dashboard_page] puts on the screen. *)
Record Dashboard := mkDashboard {
  dash_years : list Z;
  dash_total_debit : money;
  dash_total_credit : money;
  dash_starting_balance : money;
  dash_adjusted_balance : money;
  dash_debit_month : list money;
  dash_credit_month : list money;
  dash_net : list money
}.

(** [dashboard_page], given the year picked in the selector and the starting
    balance typed in.  The tables of the lower half read no clock and change
    nothing; they are left out. *)
Definition dashboard_page (year : Z) (starting_balance : money)
    (s : SessionState) (c : clock) : option (Dashboard * clock) :=
  let (years, c1) := years_available s c in
  '((debit_month, credit_month), c2) <- monthly_aggregation_for_year year s c1 ;;
  let '(total_debit, total_credit) :=
    totals_from_monthly debit_month credit_month in
  let adjusted := starting_balance + (total_credit - total_debit) in
  net <- net_month debit_month credit_month ;;
  Some (mkDashboard years total_debit total_credit starting_balance adjusted
          debit_month credit_month net, c2).

(** The two counts at the foot of [page_financial_summary]. *)
Definition vehicles_sold (s : SessionState) : nat := List.length (sales s).

Definition vehicles_in_inventory (s : SessionState) : nat :=
  List.length (inventory s).

(** What the user does in one script run: the page chosen in the side bar
    and the values of its widgets. *)
Inductive request :=
| DashboardPage (year : Z) (starting_balance : money)
| AddVehiclePage (submitted : bool) (brand model : string) (year : Z)
    (purchase_price expected_sell_price : money)
| ViewInventoryPage
| SearchVehiclePage (clicked : bool) (vid : Z)
| SellVehiclePage (submitted : bool) (vid : Z) (customer : string)
    (sale_price : money)
| SalesRecordsPage
| ExpensesPage (submitted : bool) (desc : string) (amount : money)
| FinancialSummaryPage.

(** The effect of one run of [main] on the session store and on the clock:
    [init_state], then the page.  The add-vehicle page reads the clock once
    for the default of its year widget before it handles the form; the pages
    that only display leave both alone.  [None] stands for an exception
    leaving the page. *)
Definition main (q : request) (r : RawSession) (c : clock)
    : option (RawSession * clock) :=
  let s := init_state r in
  match q with
  | DashboardPage year starting_balance =>
      '(_, c1) <- dashboard_page year starting_balance s c ;;
      Some (stored s, c1)
  | AddVehiclePage submitted brand model year p e =>
      let (_, c0) := utcnow c in
      let '(s1, _, c1) := page_add_vehicle submitted brand model year p e s c0 in
      Some (stored s1, c1)
  | SellVehiclePage submitted vid customer p =>
      let '(s1, _, c1) := page_sell_vehicle submitted vid customer p s c in
      Some (stored s1, c1)
  | ExpensesPage submitted desc amount =>
      let '(s1, _, c1) := page_expenses submitted desc amount s c in
      Some (stored s1, c1)
  | ViewInventoryPage | SearchVehiclePage _ _ | SalesRecordsPage
  | FinancialSummaryPage => Some (stored s, c)
  end.

(** A session: one script run after another on the same store. *)
Fixpoint session (reqs : list request) (r : RawSession) (c : clock)
    : option (RawSession * clock) :=
  match reqs with
  | [] => Some (r, c)
  | q :: rest =>
      '(r1, c1) <- main q r c ;;
      session rest r1 c1
  end.

(** The text fields of the store are all trimmed. *)
Definition texts_trimmed (s : SessionState) : Prop :=
  (forall v, In v (inventory s) ->
     strip (Vehicle.brand v) = Vehicle.brand v
     /\ strip (Vehicle.model v) = Vehicle.model v)
  /\ (forall r, In r (sales s) ->
       strip (SaleRecord.customer_name r) = SaleRecord.customer_name r)
  /\ (forall r, In r (expenses s) ->
       strip (ExpenseRecord.description r) = ExpenseRecord.description r).

End Pages.

(** A store with two vehicles in stock. *)
Definition store_with_two_cars : SessionState :=
  fst (fst (run (lib := py_datetime)
              [ AddVehicle "Toyota" "Corolla" 2020 10000 12000;
                AddVehicle "Honda" "Civic" 2019 5000 6500 ]
              initial_state mid_january)).

(** A session at the counter: a look at the dashboard, a purchase, a sale
    with the name left empty, the sale, an expense, the summary. *)
Definition busy_day : list request :=
  [ DashboardPage 2024 0;
    AddVehiclePage true "Toyota" "Corolla" 2020 10000 12000;
    SellVehiclePage true 1 "" 11000;
    SellVehiclePage true 1 "Alice" 11000;
    ExpensesPage true "Detailing" 150;
    FinancialSummaryPage ].

(** * The ledger in the program's own arithmetic

    The amounts of the program are Python floats.  Above they are exact
    numbers, which is enough wherever nothing but the order of the additions
    matters.  Here the program is embedded once more over an arbitrary
    arithmetic: a type of numbers with the zero, the addition, the
    subtraction and the comparisons the program uses, and the two facts about
    comparing with zero that the status of the financial summary rests on.
    IEEE binary64, the arithmetic of Python's [float], is one instance and
    the exact integers are another, so what is proved for every arithmetic
    holds of the program as it runs, rounding, infinities and NaN
    included. *)

Class Arithmetic := {
  num : Type;
  num_zero : num;
  num_add : num -> num -> num;
  num_sub : num -> num -> num;
  num_lt : num -> num -> bool;
  num_eq : num -> num -> bool;
  lt_zero_asym :
    forall x, num_lt x num_zero = true -> num_lt num_zero x = false;
  eq_zero_not_lt :
    forall x, num_eq x num_zero = true ->
      num_lt num_zero x = false /\ num_lt x num_zero = false
}.

(** Python's [float]: IEEE 754 binary64 with [0.0], [+], [-], [<] and [==]. *)
Definition binary64 : Arithmetic.
Proof.
  refine {| num := float;
            num_zero := PrimFloat.zero;
            num_add := PrimFloat.add;
            num_sub := PrimFloat.sub;
            num_lt := PrimFloat.ltb;
            num_eq := PrimFloat.eqb |}.
  - intros x. rewrite !ltb_spec.
    change (Prim2SF PrimFloat.zero) with (S754_zero false).
    destruct (Prim2SF x) as [s|s| |s m e]; cbn; try destruct s;
      try discriminate; reflexivity.
  - intros x. rewrite !ltb_spec, eqb_spec.
    change (Prim2SF PrimFloat.zero) with (S754_zero false).
    destruct (Prim2SF x) as [s|s| |s m e]; cbn; try destruct s;
      try discriminate; auto.
Defined.

(** The exact integers. *)
Definition exact_arithmetic : Arithmetic.
Proof.
  refine {| num := Z;
            num_zero := 0;
            num_add := Z.add;
            num_sub := Z.sub;
            num_lt := Z.ltb;
            num_eq := Z.eqb |}.
  - intros x H. apply Z.ltb_lt in H. apply Z.ltb_ge. lia.
  - intros x H. apply Z.eqb_eq in H. subst. split; reflexivity.
Defined.

Module Ledger.

Module Vehicle.
Record t {ar : Arithmetic} := mk {
  id : Z;
  brand : string;
  model : string;
  year : Z;
  purchase_price : num;
  expected_sell_price : num;
  date_added : string
}.
Arguments mk {ar}.
End Vehicle.

Module SaleRecord.
Record t {ar : Arithmetic} := mk {
  sale_id : Z;
  vehicle_id : Z;
  customer_name : string;
  sale_price : num;
  date : string
}.
Arguments mk {ar}.
End SaleRecord.

Module ExpenseRecord.
Record t {ar : Arithmetic} := mk {
  expense_id : Z;
  description : string;
  amount : num;
  date : string
}.
Arguments mk {ar}.
End ExpenseRecord.

Module PurchaseEvent.
Record t {ar : Arithmetic} := mk {
  amount : num;
  date : string
}.
Arguments mk {ar}.
End PurchaseEvent.

(** [st.session_state] once [init_state] has run. *)
Record SessionState {ar : Arithmetic} := mkState {
  inventory : list Vehicle.t;
  sales : list SaleRecord.t;
  expenses : list ExpenseRecord.t;
  purchase_history : list PurchaseEvent.t;
  next_vehicle_id : Z;
  next_sale_id : Z;
  next_expense_id : Z;
  cumulative_purchase_cost : num;
  total_other_expenses : option num
}.
Arguments mkState {ar}.

(** What [page_financial_summary] shows. *)
Record Summary {ar : Arithmetic} := mkSummary {
  cum_purchase : num;
  revenue : num;
  other_expenses : num;
  profit : num;
  status : notice
}.
Arguments mkSummary {ar}.

Section Program.

Context {ar : Arithmetic} {lib : DatetimeLib}.

(** What [init_state] makes of a session that has just started. *)
Definition initial_state : SessionState :=
  {| inventory := [];
     sales := [];
     expenses := [];
     purchase_history := [];
     next_vehicle_id := 1;
     next_sale_id := 1;
     next_expense_id := 1;
     cumulative_purchase_cost := num_zero;
     total_other_expenses := None |}.

Fixpoint find_in (vid : Z) (inv : list Vehicle.t) : option Vehicle.t :=
  match inv with
  | [] => None
  | v :: rest => if Vehicle.id v =? vid then Some v else find_in vid rest
  end.

Definition find_vehicle_by_id (vid : Z) (s : SessionState) : option Vehicle.t :=
  find_in vid (inventory s).

Fixpoint remove_vehicle_by_id (vid : Z) (inv : list Vehicle.t)
  : bool * list Vehicle.t :=
  match inv with
  | [] => (false, [])
  | v :: rest =>
      if Vehicle.id v =? vid then (true, rest)
      else let (removed, rest') := remove_vehicle_by_id vid rest in
           (removed, v :: rest')
  end.

(** The builtin [sum]: starts from zero and adds from the left. *)
Definition py_sum (l : list num) : num := fold_left num_add l num_zero.

(** [l[i] += x], with Python's reading of the index. *)
Definition list_iadd (l : list num) (i : Z) (x : num) : option (list num) :=
  let n := Z.of_nat (List.length l) in
  let j := if i <? 0 then i + n else i in
  if (0 <=? j) && (j <? n)
  then Some (list_alter (fun y => num_add y x) (Z.to_nat j) l)
  else None.

Definition add_vehicle (brand model : string) (year : Z)
    (purchase_price expected_sell_price : num)
    (s : SessionState) (c : clock) : SessionState * notice * clock :=
  let vid := next_vehicle_id s in
  let (now, c1) := utcnow c in
  let date_added := isoformat now in
  let v := Vehicle.mk vid (strip brand) (strip model) year
             purchase_price expected_sell_price date_added in
  ({| inventory := v :: inventory s;
      sales := sales s;
      expenses := expenses s;
      purchase_history :=
        purchase_history s ++ [PurchaseEvent.mk purchase_price date_added];
      next_vehicle_id := next_vehicle_id s + 1;
      next_sale_id := next_sale_id s;
      next_expense_id := next_expense_id s;
      cumulative_purchase_cost :=
        num_add (cumulative_purchase_cost s) purchase_price;
      total_other_expenses := total_other_expenses s |},
   st_success (append "Vehicle added with ID: " (str_of_int vid)),
   c1).

Definition sell_vehicle (vid : Z) (customer_name : string) (sale_price : num)
    (s : SessionState) (c : clock) : SessionState * notice * clock :=
  match find_vehicle_by_id vid s with
  | None => (s, st_error "Vehicle ID not found in inventory.", c)
  | Some _ =>
      let sale_id := next_sale_id s in
      let (now, c1) := utcnow c in
      let rec := SaleRecord.mk sale_id vid (strip customer_name) sale_price
                   (isoformat now) in
      let (removed, inventory1) := remove_vehicle_by_id vid (inventory s) in
      if removed then
        ({| inventory := inventory1;
            sales := sales s ++ [rec];
            expenses := expenses s;
            purchase_history := purchase_history s;
            next_vehicle_id := next_vehicle_id s;
            next_sale_id := next_sale_id s + 1;
            next_expense_id := next_expense_id s;
            cumulative_purchase_cost := cumulative_purchase_cost s;
            total_other_expenses := total_other_expenses s |},
         st_success (append "Vehicle ID " (append (str_of_int vid)
                      (append " sold. Sale ID: " (str_of_int sale_id)))),
         c1)
      else
        ({| inventory := inventory1;
            sales := sales s ++ [rec];
            expenses := expenses s;
            purchase_history := purchase_history s;
            next_vehicle_id := next_vehicle_id s;
            next_sale_id := next_sale_id s;
            next_expense_id := next_expense_id s;
            cumulative_purchase_cost := cumulative_purchase_cost s;
            total_other_expenses := total_other_expenses s |},
         st_error "Failed to remove vehicle from inventory (unexpected).",
         c1)
  end.

Definition add_expense (description : string) (amount : num)
    (s : SessionState) (c : clock) : SessionState * notice * clock :=
  let eid := next_expense_id s in
  let (now, c1) := utcnow c in
  let rec := ExpenseRecord.mk eid (strip description) amount (isoformat now) in
  ({| inventory := inventory s;
      sales := sales s;
      expenses := expenses s ++ [rec];
      purchase_history := purchase_history s;
      next_vehicle_id := next_vehicle_id s;
      next_sale_id := next_sale_id s;
      next_expense_id := next_expense_id s + 1;
      cumulative_purchase_cost := cumulative_purchase_cost s;
      total_other_expenses :=
        Some (num_add (setdefault (total_other_expenses s) num_zero) amount) |},
   st_success (append "Expense added with ID: " (str_of_int eid)),
   c1).

(** One of the three loops of [monthly_aggregation_for_year]. *)
Fixpoint accumulate {A : Type} (get_date : A -> string) (get_amount : A -> num)
    (year : Z) (records : list A) (months : list num) (c : clock)
    : option (list num * clock) :=
  match records with
  | [] => Some (months, c)
  | r :: rest =>
      let '((y, m), c1) := month_key_from_iso (get_date r) c in
      if y =? year then
        match list_iadd months (m - 1) (get_amount r) with
        | Some months1 => accumulate get_date get_amount year rest months1 c1
        | None => None
        end
      else accumulate get_date get_amount year rest months c1
  end.

(** Returns [(debit_month, credit_month)]; [None] stands for an [IndexError]. *)
Definition monthly_aggregation_for_year (year : Z) (s : SessionState) (c : clock)
    : option ((list num * list num) * clock) :=
  let debit_month := repeat num_zero 12 in
  let credit_month := repeat num_zero 12 in
  '(credit_month, c1) <-
     accumulate SaleRecord.date SaleRecord.sale_price year (sales s)
       credit_month c ;;
  '(debit_month, c2) <-
     accumulate ExpenseRecord.date ExpenseRecord.amount year (expenses s)
       debit_month c1 ;;
  '(debit_month, c3) <-
     accumulate PurchaseEvent.date PurchaseEvent.amount year
       (purchase_history s) debit_month c2 ;;
  Some ((debit_month, credit_month), c3).

Definition page_financial_summary (s : SessionState) : Summary :=
  let cum_purchase := cumulative_purchase_cost s in
  let revenue := py_sum (map SaleRecord.sale_price (sales s)) in
  let expenses := py_sum (map ExpenseRecord.amount (expenses s)) in
  let profit := num_sub revenue (num_add cum_purchase expenses) in
  mkSummary cum_purchase revenue expenses profit
    (if num_lt num_zero profit then st_success "Status: PROFIT"
     else if num_lt profit num_zero then st_error "Status: LOSS"
     else st_info "Status: BREAK-EVEN").

(** What a user can do to the store. *)
Inductive action :=
| AddVehicle (brand model : string) (year : Z)
    (purchase_price expected_sell_price : num)
| SellVehicle (vid : Z) (customer_name : string) (sale_price : num)
| AddExpense (description : string) (amount : num).

Definition step (a : action) (s : SessionState) (c : clock)
    : SessionState * notice * clock :=
  match a with
  | AddVehicle b m y p e => add_vehicle b m y p e s c
  | SellVehicle v n p => sell_vehicle v n p s c
  | AddExpense d a => add_expense d a s c
  end.

Fixpoint run (acts : list action) (s : SessionState) (c : clock)
    : SessionState * list notice * clock :=
  match acts with
  | [] => (s, [], c)
  | a :: rest =>
      let '(s1, n, c1) := step a s c in
      let '(s2, ns, c2) := run rest s1 c1 in
      (s2, n :: ns, c2)
  end.

(** The store a session is in after a sequence of operations. *)
Definition store_after (acts : list action) (c : clock) : SessionState :=
  fst (fst (run acts initial_state c)).

(** ** Vocabulary of the specification *)

(** The amounts added one after another to zero, in the order of the list. *)
Definition running_total (amounts : list num) : num :=
  fold_left num_add amounts num_zero.

(** The month keys of a list of dates visited in order: the year and month a
    date parses to, and for a date that does not parse the year and month of
    the next reading of the clock. *)
Fixpoint keys_of_dates (dates : list string) (c : clock)
    : list (Z * Z) * clock :=
  match dates with
  | [] => ([], c)
  | d :: rest =>
      match fromisoformat d with
      | Some dt =>
          let (ks, c1) := keys_of_dates rest c in
          ((datetime.year dt, datetime.month dt) :: ks, c1)
      | None =>
          let (ks, c1) := keys_of_dates rest (fun n => c (S n)) in
          ((datetime.year (c 0%nat), datetime.month (c 0%nat)) :: ks, c1)
      end
  end.

(** The amounts whose month key is [(year, m)], in their order. *)
Fixpoint amounts_in (year m : Z) (keys : list (Z * Z)) (amounts : list num)
    : list num :=
  match keys, amounts with
  | k :: ks, a :: rest =>
      if (fst k =? year) && (snd k =? m)
      then a :: amounts_in year m ks rest
      else amounts_in year m ks rest
  | _, _ => []
  end.

(** The bucket of month [m] in an array of twelve. *)
Definition bucket (l : list num) (m : Z) : num :=
  nth (Z.to_nat (m - 1)) l num_zero.

(** The aggregates in the words of the specification: the sum of the sale
    prices of the sales whose date parses to the month, and the sum of the
    expense amounts plus the sum of the purchase amounts of those that do. *)
Definition credit_as_claimed (year : Z) (s : SessionState) (m : Z) : num :=
  running_total
    (map SaleRecord.sale_price
       (filter (fun r => parses_to year m (SaleRecord.date r)) (sales s))).

Definition debit_as_claimed (year : Z) (s : SessionState) (m : Z) : num :=
  num_add
    (running_total
       (map ExpenseRecord.amount
          (filter (fun r => parses_to year m (ExpenseRecord.date r))
             (expenses s))))
    (running_total
       (map PurchaseEvent.amount
          (filter (fun r => parses_to year m (PurchaseEvent.date r))
             (purchase_history s)))).

(** Every date string of the store parses. *)
Definition dates_parse (s : SessionState) : bool :=
  forallb (fun r => parses (SaleRecord.date r)) (sales s)
  && forallb (fun r => parses (ExpenseRecord.date r)) (expenses s)
  && forallb (fun r => parses (PurchaseEvent.date r)) (purchase_history s).

End Program.

End Ledger.

(** ** Sample ledgers in binary64 *)

(** The doubles nearest to 0.1, 0.2 and 0.3, and 1e308. *)
Definition f_0_1 : float := 0x1.999999999999ap-4%float.

Definition f_0_2 : float := 0x1.999999999999ap-3%float.

Definition f_0_3 : float := 0x1.3333333333333p-2%float.

Definition f_1e308 : float := 0x1.1ccf385ebc8ap+1023%float.

(** An expense of 0.1 and two purchases of 0.2 and 0.3, all in January
    2024. *)
Definition store_0_1_0_2_0_3 : Ledger.SessionState (ar := binary64) :=
  Ledger.store_after (ar := binary64) (lib := py_datetime)
    [ Ledger.AddExpense (ar := binary64) "Detailing" f_0_1;
      Ledger.AddVehicle (ar := binary64) "Toyota" "Corolla" 2020 f_0_2 f_0_3;
      Ledger.AddVehicle (ar := binary64) "Honda" "Civic" 2019 f_0_3 f_0_3 ]
    mid_january.

(** A vehicle taken in for nothing and sold for 0.3, with expenses of 0.1 and
    0.2. *)
Definition store_0_3_against_0_1_0_2 : Ledger.SessionState (ar := binary64) :=
  Ledger.store_after (ar := binary64) (lib := py_datetime)
    [ Ledger.AddVehicle (ar := binary64) "Toyota" "Corolla" 2020
        PrimFloat.zero f_0_3;
      Ledger.SellVehicle (ar := binary64) 1 "Alice" f_0_3;
      Ledger.AddExpense (ar := binary64) "Detailing" f_0_1;
      Ledger.AddExpense (ar := binary64) "Transport" f_0_2 ]
    mid_january.

(** Two vehicles bought and sold at 1e308 apiece: cost and revenue both
    overflow to infinity. *)
Definition store_overflowing : Ledger.SessionState (ar := binary64) :=
  Ledger.store_after (ar := binary64) (lib := py_datetime)
    [ Ledger.AddVehicle (ar := binary64) "Toyota" "Corolla" 2020
        f_1e308 f_1e308;
      Ledger.AddVehicle (ar := binary64) "Honda" "Civic" 2019
        f_1e308 f_1e308;
      Ledger.SellVehicle (ar := binary64) 1 "Alice" f_1e308;
      Ledger.SellVehicle (ar := binary64) 2 "Bob" f_1e308 ]
    mid_january.

(** The scenario of the specification, in binary64. *)
Definition scenario_in_binary64 : Ledger.SessionState (ar := binary64) :=
  Ledger.store_after (ar := binary64) (lib := py_datetime)
    [ Ledger.AddVehicle (ar := binary64) "Toyota" "Corolla" 2020
        10000%float 12000%float;
      Ledger.SellVehicle (ar := binary64) 1 "Alice" 11000%float;
      Ledger.AddExpense (ar := binary64) "Detailing" 150%float ]
    mid_january.

(** A store holding one sale of 5 whose date is not a date, in exact
    arithmetic. *)
Definition ledger_with_undated_sale
    : Ledger.SessionState (ar := exact_arithmetic) :=
  Ledger.mkState (ar := exact_arithmetic) []
    [Ledger.SaleRecord.mk (ar := exact_arithmetic) 1 1 "Alice" 5 "not-a-date"]
    [] [] 2 2 1 0 None.

(** * Properties *)

(** ** Sums and bucket updates *)




Lemma total_cons (x : money) (l : list money) : total (x :: l) = x + total l.
Proof. reflexivity. Qed.

Lemma list_alter_length {A : Type} (f : A -> A) (i : nat) (l : list A) :
  List.length (list_alter f i l) = List.length l.
Proof.
  revert i; induction l as [|x l IH]; intros [|i]; simpl; auto.
Qed.

Lemma list_alter_nth {A : Type} (f : A -> A) (d : A) (l : list A) :
  forall i k, (i < List.length l)%nat ->
  nth k (list_alter f i l) d = if Nat.eqb k i then f (nth k l d) else nth k l d.
Proof.
  induction l as [|x l IH]; intros i k Hi; simpl in Hi; [lia|].
  destruct i as [|i], k as [|k]; simpl; try reflexivity.
  apply IH. lia.
Qed.

Lemma list_iadd_month (l : list money) (m : Z) (x : money) :
  List.length l = 12%nat -> 1 <= m <= 12 ->
  exists l', list_iadd l (m - 1) x = Some l'
    /\ List.length l' = 12%nat
    /\ forall k, 1 <= k <= 12 ->
         bucket l' k = bucket l k + (if k =? m then x else 0).
Proof.
  intros Hl Hm. unfold list_iadd. rewrite Hl.
  replace (m - 1 <? 0) with false by (symmetry; apply Z.ltb_ge; lia).
  replace ((0 <=? m - 1) && (m - 1 <? Z.of_nat 12)) with true
    by (symmetry; apply andb_true_iff; split;
        [apply Z.leb_le | apply Z.ltb_lt]; lia).
  eexists; split; [reflexivity|]. split.
  - rewrite list_alter_length. exact Hl.
  - intros k Hk. unfold bucket. rewrite list_alter_nth by lia.
    destruct (Z.eqb_spec k m) as [->|Hne].
    + rewrite Nat.eqb_refl. reflexivity.
    + replace (Nat.eqb (Z.to_nat (k - 1)) (Z.to_nat (m - 1))) with false.
      * lia.
      * symmetry. apply Nat.eqb_neq. lia.
Qed.

Lemma twelve_buckets (l : list money) :
  List.length l = 12%nat -> l = map (bucket l) month_numbers.
Proof.
  intros H.
  do 12 (destruct l as [|? l]; [discriminate H|]).
  destruct l; [reflexivity | discriminate H].
Qed.

Lemma month_numbers_range (m : Z) : In m month_numbers -> 1 <= m <= 12.
Proof. unfold month_numbers. simpl. intuition lia. Qed.

Lemma bucket_zeros (m : Z) : 1 <= m <= 12 -> bucket (repeat 0 12) m = 0.
Proof.
  intros Hm. unfold bucket.
  assert (H : In (nth (Z.to_nat (m - 1)) (repeat 0 12) 0) (repeat 0 12)).
  { apply nth_In. rewrite repeat_length. lia. }
  apply repeat_spec in H. exact H.
Qed.

(** A [datetime] has its month between 1 and 12. *)
Lemma datetime_month_range (dt : datetime.t) : 1 <= datetime.month dt <= 12.
Proof.
  destruct dt as [y mo d h mi s us V]. simpl.
  unfold valid_datetime in V.
  repeat (apply andb_true_iff in V; destruct V as [V ?]).
  lia.
Qed.

(** ** The monthly aggregator *)

Section Aggregator.

Context {lib : DatetimeLib}.

Lemma month_key_range (iso_dt : string) (c : clock) :
  1 <= snd (fst (month_key_from_iso iso_dt c)) <= 12.
Proof.
  unfold month_key_from_iso.
  destruct (fromisoformat iso_dt) as [dt|]; simpl; apply datetime_month_range.
Qed.

Lemma bucket_total_cons (year m : Z) (k : Z * Z) (ks : list (Z * Z))
    (a : money) (amounts : list money) :
  bucket_total year m (k :: ks) (a :: amounts)
  = (if in_month year m k then a else 0) + bucket_total year m ks amounts.
Proof.
  unfold bucket_total. cbn [combine filter fst].
  destruct (in_month year m k); cbn [map snd]; rewrite ?total_cons; reflexivity.
Qed.

(** One loop of the aggregator never fails on twelve buckets, leaves twelve
    buckets, and adds to each month the amounts keyed to it. *)
Lemma accumulate_buckets {A : Type} (get_date : A -> string)
    (get_amount : A -> money) (year : Z) (records : list A) :
  forall (months : list money) (c : clock),
  List.length months = 12%nat ->
  exists months',
    accumulate get_date get_amount year records months c
      = Some (months', snd (month_keys (map get_date records) c))
    /\ List.length months' = 12%nat
    /\ forall m, 1 <= m <= 12 ->
         bucket months' m
         = bucket months m
           + bucket_total year m (fst (month_keys (map get_date records) c))
               (map get_amount records).
Proof.
  induction records as [|r rest IH]; intros months c Hlen.
  - exists months. simpl. repeat split; auto.
    intros m _. unfold bucket_total. simpl. lia.
  - simpl.
    pose proof (month_key_range (get_date r) c) as Hrange.
    destruct (month_key_from_iso (get_date r) c) as [[y mo] c1] eqn:Hkey.
    simpl in Hrange.
    destruct (month_keys (map get_date rest) c1) as [ks c2] eqn:Hks.
    simpl.
    destruct (Z.eqb_spec y year) as [->|Hy].
    + destruct (list_iadd_month months mo (get_amount r) Hlen Hrange)
        as (months1 & Hadd & Hlen1 & Hget1).
      rewrite Hadd.
      destruct (IH months1 c1 Hlen1) as (months' & Hacc & Hlen' & Hget').
      rewrite Hks in Hacc, Hget'. simpl in Hacc, Hget'.
      exists months'. repeat split; auto.
      intros m Hm. rewrite Hget', Hget1 by assumption.
      rewrite bucket_total_cons. unfold in_month. simpl.
      rewrite Z.eqb_refl. simpl.
      rewrite (Z.eqb_sym mo m). lia.
    + destruct (IH months c1 Hlen) as (months' & Hacc & Hlen' & Hget').
      rewrite Hks in Hacc, Hget'. simpl in Hacc, Hget'.
      exists months'. repeat split; auto.
      intros m Hm. rewrite Hget' by assumption.
      rewrite bucket_total_cons. unfold in_month. simpl.
      replace (y =? year) with false by (symmetry; apply Z.eqb_neq; assumption).
      simpl. lia.
Qed.

(** When a date parses, its month key does not involve the clock. *)
Lemma month_key_parsed (iso_dt : string) (c : clock) :
  parses iso_dt = true ->
  exists dt, fromisoformat iso_dt = Some dt
    /\ month_key_from_iso iso_dt c = ((datetime.year dt, datetime.month dt), c).
Proof.
  unfold parses, month_key_from_iso.
  destruct (fromisoformat iso_dt) as [dt|]; [|discriminate].
  intros _. exists dt. split; reflexivity.
Qed.

(** Over records whose dates all parse, a loop reads no clock and each bucket
    total is the sum over the records whose date parses to the month. *)
Lemma month_keys_parsed {A : Type} (get_date : A -> string)
    (get_amount : A -> money) (year m : Z) (records : list A) (c : clock) :
  forallb (fun r => parses (get_date r)) records = true ->
  snd (month_keys (map get_date records) c) = c
  /\ bucket_total year m (fst (month_keys (map get_date records) c))
       (map get_amount records)
     = total (map get_amount
                (filter (fun r => parses_to year m (get_date r)) records)).
Proof.
  induction records as [|r rest IH]; intros Hall.
  - split; reflexivity.
  - simpl in Hall. apply andb_true_iff in Hall. destruct Hall as [Hr Hrest].
    destruct (IH Hrest) as [IHc IHt].
    destruct (month_key_parsed (get_date r) c Hr) as (dt & Hparse & Hkey).
    simpl. rewrite Hkey.
    destruct (month_keys (map get_date rest) c) as [ks c2] eqn:Hks.
    simpl in *. split; [exact IHc|].
    rewrite bucket_total_cons, IHt.
    unfold parses_to. rewrite Hparse.
    destruct (in_month year m (datetime.year dt, datetime.month dt));
      cbn [filter map]; rewrite ?total_cons; reflexivity.
Qed.

(** Both arrays the aggregator returns, in terms of the month keys of the
    three loops. *)
Lemma monthly_aggregation_keys (year : Z) (s : SessionState) (c : clock) :
  let ks := month_keys (map SaleRecord.date (sales s)) c in
  let ke := month_keys (map ExpenseRecord.date (expenses s)) (snd ks) in
  let kp := month_keys (map PurchaseEvent.date (purchase_history s)) (snd ke) in
  monthly_aggregation_for_year year s c
  = Some ((map (fun m =>
                  bucket_total year m (fst ke)
                    (map ExpenseRecord.amount (expenses s))
                  + bucket_total year m (fst kp)
                      (map PurchaseEvent.amount (purchase_history s)))
             month_numbers,
           map (fun m =>
                  bucket_total year m (fst ks)
                    (map SaleRecord.sale_price (sales s)))
             month_numbers),
          snd kp).
Proof.
  intros ks ke kp. unfold monthly_aggregation_for_year.
  destruct (accumulate_buckets SaleRecord.date SaleRecord.sale_price year
              (sales s) (repeat 0 12) c (repeat_length 0 12))
    as (credit & Hc & Hclen & Hcget).
  rewrite Hc. cbn [bind_opt].
  destruct (accumulate_buckets ExpenseRecord.date ExpenseRecord.amount year
              (expenses s) (repeat 0 12) (snd ks) (repeat_length 0 12))
    as (debit1 & Hd1 & Hd1len & Hd1get).
  fold ks. rewrite Hd1. cbn [bind_opt].
  destruct (accumulate_buckets PurchaseEvent.date PurchaseEvent.amount year
              (purchase_history s) debit1 (snd ke) Hd1len)
    as (debit & Hd & Hdlen & Hdget).
  fold ke. rewrite Hd. cbn [bind_opt]. fold kp.
  f_equal. f_equal. f_equal.
  - rewrite (twelve_buckets debit Hdlen). apply map_ext_in.
    intros m Hm. apply month_numbers_range in Hm.
    rewrite Hdget, Hd1get, bucket_zeros by assumption.
    fold ks ke kp. lia.
  - rewrite (twelve_buckets credit Hclen). apply map_ext_in.
    intros m Hm. apply month_numbers_range in Hm.
    rewrite Hcget, bucket_zeros by assumption.
    fold ks. lia.
Qed.

(** When every date of the store parses, the aggregator reads no clock and
    returns the sums over the records whose date parses to each month. *)
Lemma monthly_aggregation_of_parsed (year : Z) (s : SessionState) (c : clock) :
  dates_parse s = true ->
  monthly_aggregation_for_year year s c = Some (aggregation_of_parsed year s, c).
Proof.
  unfold dates_parse. intros H.
  apply andb_true_iff in H. destruct H as [H Hp].
  apply andb_true_iff in H. destruct H as [Hs He].
  rewrite monthly_aggregation_keys.
  pose proof (fun m => month_keys_parsed SaleRecord.date SaleRecord.sale_price
                         year m (sales s) c Hs) as Ks.
  destruct (Ks 0) as [Ksc _]. rewrite Ksc.
  pose proof (fun m => month_keys_parsed ExpenseRecord.date ExpenseRecord.amount
                         year m (expenses s) c He) as Ke.
  destruct (Ke 0) as [Kec _]. rewrite Kec.
  pose proof (fun m => month_keys_parsed PurchaseEvent.date PurchaseEvent.amount
                         year m (purchase_history s) c Hp) as Kp.
  destruct (Kp 0) as [Kpc _]. rewrite Kpc.
  unfold aggregation_of_parsed. f_equal. f_equal. f_equal.
  - apply map_ext. intros m. unfold debit_of_parsed.
    rewrite (proj2 (Ke m)), (proj2 (Kp m)). reflexivity.
  - apply map_ext. intros m. unfold credit_of_parsed.
    rewrite (proj2 (Ks m)). reflexivity.
Qed.

Lemma month_key_within (iso_dt : string) (c : clock) (now : Z * Z) :
  (forall n, clock_key c n = now) ->
  fst (month_key_from_iso iso_dt c) = month_key_at now iso_dt
  /\ forall n, clock_key (snd (month_key_from_iso iso_dt c)) n = now.
Proof.
  intros Hc. unfold month_key_from_iso, month_key_at.
  destruct (fromisoformat iso_dt) as [dt|]; simpl.
  - split; [reflexivity | exact Hc].
  - split; [exact (Hc 0%nat) | intros n; exact (Hc (S n))].
Qed.

(** While the clock stays in one month, the keys a loop gives do not depend
    on how many readings were taken before. *)
Lemma month_keys_within (dates : list string) :
  forall (c : clock) (now : Z * Z),
  (forall n, clock_key c n = now) ->
  fst (month_keys dates c) = map (month_key_at now) dates
  /\ forall n, clock_key (snd (month_keys dates c)) n = now.
Proof.
  induction dates as [|d rest IH]; intros c now Hc.
  - split; [reflexivity | exact Hc].
  - simpl.
    destruct (month_key_within d c now Hc) as [Hk Hc1].
    destruct (month_key_from_iso d c) as [k c1]. simpl in Hk, Hc1.
    destruct (IH c1 now Hc1) as [Hks Hc2].
    destruct (month_keys rest c1) as [ks c2]. simpl in *.
    split; [congruence | exact Hc2].
Qed.

Lemma monthly_aggregation_within (year : Z) (s : SessionState) (c : clock)
    (now : Z * Z) :
  (forall n, clock_key c n = now) ->
  exists c',
    monthly_aggregation_for_year year s c
    = Some ((map (fun m =>
                    bucket_total year m
                      (map (month_key_at now) (map ExpenseRecord.date (expenses s)))
                      (map ExpenseRecord.amount (expenses s))
                    + bucket_total year m
                        (map (month_key_at now)
                           (map PurchaseEvent.date (purchase_history s)))
                        (map PurchaseEvent.amount (purchase_history s)))
               month_numbers,
             map (fun m =>
                    bucket_total year m
                      (map (month_key_at now) (map SaleRecord.date (sales s)))
                      (map SaleRecord.sale_price (sales s)))
               month_numbers),
            c')
    /\ forall n, clock_key c' n = now.
Proof.
  intros Hc. rewrite monthly_aggregation_keys.
  destruct (month_keys_within (map SaleRecord.date (sales s)) c now Hc)
    as [Hks Hc1].
  destruct (month_keys_within (map ExpenseRecord.date (expenses s)) _ now Hc1)
    as [Hke Hc2].
  destruct (month_keys_within (map PurchaseEvent.date (purchase_history s))
              _ now Hc2) as [Hkp Hc3].
  eexists. split; [|exact Hc3].
  rewrite Hks, Hke, Hkp. reflexivity.
Qed.


(** C7 (as amended).  Two calls of the aggregator in a row, with no change of
    the store in between, return the same arrays whenever every date of the
    store parses, or all clock readings fall in one calendar month. *)
Theorem monthly_aggregation_repeatable (year : Z) (s : SessionState) (c : clock) :
  dates_parse s = true \/ within_one_month c ->
  exists r, aggregate_twice year s c = Some (r, r).
Proof.
  intros [Hparse | Hclock]; unfold aggregate_twice.
  - exists (aggregation_of_parsed year s).
    rewrite (monthly_aggregation_of_parsed year s c Hparse). cbn [bind_opt].
    rewrite (monthly_aggregation_of_parsed year s c Hparse). reflexivity.
  - destruct (monthly_aggregation_within year s c (clock_key c 0%nat) Hclock)
      as (c1 & H1 & Hc1).
    destruct (monthly_aggregation_within year s c1 (clock_key c 0%nat) Hc1)
      as (c2 & H2 & _).
    eexists. rewrite H1. cbn [bind_opt]. rewrite H2. reflexivity.
Qed.

End Aggregator.

(** *** The aggregator on stores with a date that does not parse *)

(** C7, counterexample.  Same store, and midnight of 31 January 2024 passes
    between the two calls: the first call puts the sale in January, the
    second in February. *)
Lemma aggregation_twice_over_midnight_differs :
  aggregate_twice (lib := py_datetime) 2024 store_with_undated_sale over_midnight
  = Some (([0; 0; 0; 0; 0; 0; 0; 0; 0; 0; 0; 0],
           [5; 0; 0; 0; 0; 0; 0; 0; 0; 0; 0; 0]),
          ([0; 0; 0; 0; 0; 0; 0; 0; 0; 0; 0; 0],
           [0; 5; 0; 0; 0; 0; 0; 0; 0; 0; 0; 0]))
  /\ ~ exists r,
       aggregate_twice (lib := py_datetime) 2024 store_with_undated_sale
         over_midnight = Some (r, r).
Proof.
  split; [vm_compute; reflexivity|].
  intros [r H]. vm_compute in H.
  injection H as H1 H2. rewrite <- H1 in H2. discriminate H2.
Qed.

Lemma monthly_aggregation_repeatable_witness :
  (dates_parse (lib := py_datetime) store_after_scenario = true
   \/ within_one_month over_midnight)
  /\ exists r,
       aggregate_twice (lib := py_datetime) 2024 store_after_scenario
         over_midnight = Some (r, r).
Proof.
  split.
  - left. vm_compute. reflexivity.
  - apply monthly_aggregation_repeatable. left. vm_compute. reflexivity.
Defined.

(** The scenario of the specification with two purchases in January and one
    sale in February. *)
Example january_purchases_february_sale :
  let c := readings [at_time 2024 1 10 9 0 0; at_time 2024 1 20 9 0 0]
             (at_time 2024 2 5 9 0 0) in
  let '(s, _, c1) :=
    run (lib := py_datetime)
      [ AddVehicle "Honda" "Civic" 2019 5000 6500;
        AddVehicle "Ford" "Focus" 2018 7000 8000;
        SellVehicle 1 "Bob" 9000 ] initial_state c in
  option_map fst (monthly_aggregation_for_year (lib := py_datetime) 2024 s c1)
  = Some ([12000; 0; 0; 0; 0; 0; 0; 0; 0; 0; 0; 0],
          [0; 9000; 0; 0; 0; 0; 0; 0; 0; 0; 0; 0]).
Proof. vm_compute. reflexivity. Qed.

(** ** Inventory look-up and removal *)

Lemma find_in_none (vid : Z) (inv : list Vehicle.t) :
  find_in vid inv = None <-> ~ In vid (map Vehicle.id inv).
Proof.
  induction inv as [|v rest IH]; simpl.
  - tauto.
  - destruct (Z.eqb_spec (Vehicle.id v) vid) as [E|E].
    + split; [discriminate | intros H; elim H; auto].
    + rewrite IH. tauto.
Qed.

Lemma find_in_some (vid : Z) (inv : list Vehicle.t) (v : Vehicle.t) :
  find_in vid inv = Some v -> In v inv /\ Vehicle.id v = vid.
Proof.
  induction inv as [|w rest IH]; simpl; [discriminate|].
  destruct (Z.eqb_spec (Vehicle.id w) vid) as [E|E].
  - intros H. injection H as <-. auto.
  - intros H. destruct (IH H). auto.
Qed.

Lemma find_in_some_stock (vid : Z) (inv : list Vehicle.t) (v : Vehicle.t) :
  find_in vid inv = Some v -> In vid (map Vehicle.id inv).
Proof.
  intros H. destruct (find_in_some _ _ _ H) as [Hin <-].
  apply in_map. exact Hin.
Qed.

(** A vehicle the look-up finds is one the removal removes. *)
Lemma remove_after_find (vid : Z) (inv : list Vehicle.t) (v : Vehicle.t) :
  find_in vid inv = Some v -> fst (remove_vehicle_by_id vid inv) = true.
Proof.
  induction inv as [|w rest IH]; simpl; [discriminate|].
  destruct (Vehicle.id w =? vid); [reflexivity|].
  intros H. specialize (IH H).
  destruct (remove_vehicle_by_id vid rest). exact IH.
Qed.

Lemma remove_length (vid : Z) (inv : list Vehicle.t) :
  fst (remove_vehicle_by_id vid inv) = true ->
  S (List.length (snd (remove_vehicle_by_id vid inv))) = List.length inv.
Proof.
  induction inv as [|w rest IH]; simpl; [discriminate|].
  destruct (Vehicle.id w =? vid); [reflexivity|].
  destruct (remove_vehicle_by_id vid rest) as [b rest']. simpl in *.
  intros H. rewrite IH by assumption. reflexivity.
Qed.

Lemma remove_ids_incl (vid i : Z) (inv : list Vehicle.t) :
  In i (map Vehicle.id (snd (remove_vehicle_by_id vid inv))) ->
  In i (map Vehicle.id inv).
Proof.
  induction inv as [|w rest IH]; simpl; [tauto|].
  destruct (Vehicle.id w =? vid); simpl; [auto|].
  destruct (remove_vehicle_by_id vid rest) as [b rest']. simpl in *.
  intros [H|H]; auto.
Qed.

Lemma remove_ids_nodup (vid : Z) (inv : list Vehicle.t) :
  NoDup (map Vehicle.id inv) ->
  NoDup (map Vehicle.id (snd (remove_vehicle_by_id vid inv))).
Proof.
  induction inv as [|w rest IH]; simpl; [auto|].
  intros H. inversion H as [|x l Hnotin Hnd]; subst.
  destruct (Vehicle.id w =? vid); simpl; [assumption|].
  pose proof (remove_ids_incl vid (Vehicle.id w) rest) as Hincl.
  destruct (remove_vehicle_by_id vid rest) as [b rest']. simpl in *.
  constructor; auto.
Qed.

Lemma remove_ids_gone (vid : Z) (inv : list Vehicle.t) :
  NoDup (map Vehicle.id inv) ->
  ~ In vid (map Vehicle.id (snd (remove_vehicle_by_id vid inv))).
Proof.
  induction inv as [|w rest IH]; simpl; [tauto|].
  intros H. inversion H as [|x l Hnotin Hnd]; subst.
  destruct (Z.eqb_spec (Vehicle.id w) vid) as [E|E]; simpl.
  - rewrite <- E. exact Hnotin.
  - specialize (IH Hnd).
    destruct (remove_vehicle_by_id vid rest) as [b rest']. simpl in *.
    intros [H1|H1]; auto.
Qed.

(** ** Selling *)

(** Reads the fields of a store an operation has just built. *)
Ltac store_fields :=
  cbn [fst snd utcnow inventory sales expenses purchase_history
       next_vehicle_id next_sale_id next_expense_id
       cumulative_purchase_cost total_other_expenses].

Section Store.

Context {lib : DatetimeLib}.

Lemma sell_vehicle_not_found (vid : Z) (customer_name : string)
    (sale_price : money) (s : SessionState) (c : clock) :
  find_vehicle_by_id vid s = None ->
  sell_vehicle vid customer_name sale_price s c
  = (s, st_error "Vehicle ID not found in inventory.", c).
Proof.
  intros H. unfold sell_vehicle, sell_vehicle_with. rewrite H. reflexivity.
Qed.

Lemma sell_vehicle_found (vid : Z) (customer_name : string)
    (sale_price : money) (s : SessionState) (c : clock) (v : Vehicle.t) :
  find_vehicle_by_id vid s = Some v ->
  sell_vehicle vid customer_name sale_price s c
  = ({| inventory := snd (remove_vehicle_by_id vid (inventory s));
        sales := sales s ++ [sale_of s c vid customer_name sale_price];
        expenses := expenses s;
        purchase_history := purchase_history s;
        next_vehicle_id := next_vehicle_id s;
        next_sale_id := next_sale_id s + 1;
        next_expense_id := next_expense_id s;
        cumulative_purchase_cost := cumulative_purchase_cost s;
        total_other_expenses := total_other_expenses s |},
     st_success (append "Vehicle ID " (append (str_of_int vid)
                  (append " sold. Sale ID: " (str_of_int (next_sale_id s))))),
     snd (utcnow c)).
Proof.
  intros H. unfold sell_vehicle, sell_vehicle_with. rewrite H.
  pose proof (remove_after_find vid (inventory s) v H) as Hrem.
  cbn [utcnow fst snd].
  destruct (remove_vehicle_by_id vid (inventory s)) as [removed inv1].
  simpl in Hrem. subst removed. reflexivity.
Qed.

(** A successful sale is one that found its vehicle. *)
Lemma sell_vehicle_success (vid : Z) (customer_name : string)
    (sale_price : money) (s : SessionState) (c : clock) :
  is_success (snd (fst (sell_vehicle vid customer_name sale_price s c))) = true ->
  exists v, find_vehicle_by_id vid s = Some v.
Proof.
  destruct (find_vehicle_by_id vid s) as [v|] eqn:H.
  - intros _. exists v. reflexivity.
  - rewrite (sell_vehicle_not_found _ _ _ _ _ H). discriminate.
Qed.

(** *** The consistency of the store is kept by every operation *)

Lemma initial_state_ok : store_ok initial_state.
Proof.
  split; simpl; try constructor; intros i [].
Qed.

Lemma add_vehicle_ok (b m : string) (y : Z) (p e : money)
    (s : SessionState) (c : clock) :
  store_ok s -> store_ok (fst (fst (add_vehicle b m y p e s c))).
Proof.
  intros [Hs Hd Hdis Hsb Hdb].
  split; unfold stock_ids, sold_ids in *; simpl.
  - constructor; [|assumption].
    intros Hin. apply Hsb in Hin. lia.
  - assumption.
  - intros i [<-|Hin]; [|auto].
    intros Hin. apply Hdb in Hin. lia.
  - intros i [<-|Hin]; [lia|]. apply Hsb in Hin. lia.
  - intros i Hin. apply Hdb in Hin. lia.
Qed.

Lemma sell_vehicle_ok (vid : Z) (n : string) (p : money)
    (s : SessionState) (c : clock) :
  store_ok s -> store_ok (fst (fst (sell_vehicle vid n p s c))).
Proof.
  intros Hok.
  destruct (find_vehicle_by_id vid s) as [v|] eqn:Hfind.
  - rewrite (sell_vehicle_found _ _ _ _ _ _ Hfind).
    destruct Hok as [Hs Hd Hdis Hsb Hdb].
    pose proof (find_in_some_stock _ _ _ Hfind) as Hstock.
    split; unfold stock_ids, sold_ids in *; simpl.
    + apply remove_ids_nodup. assumption.
    + rewrite map_app. simpl.
      apply NoDup_rev in Hd. rewrite <- (rev_involutive (_ ++ _)).
      apply NoDup_rev. rewrite rev_app_distr. simpl.
      constructor; [|assumption].
      rewrite <- in_rev. apply Hdis. assumption.
    + intros i Hin. rewrite map_app, in_app_iff. simpl.
      intros [Hsold|[<-|[]]].
      * apply (Hdis i); [eapply remove_ids_incl; eassumption | assumption].
      * revert Hin. apply remove_ids_gone. assumption.
    + intros i Hin. apply Hsb. eapply remove_ids_incl; eassumption.
    + intros i. rewrite map_app, in_app_iff. simpl.
      intros [Hsold|[<-|[]]]; auto.
  - rewrite (sell_vehicle_not_found _ _ _ _ _ Hfind). exact Hok.
Qed.

Lemma add_expense_ok (d : string) (a : money) (s : SessionState) (c : clock) :
  store_ok s -> store_ok (fst (fst (add_expense d a s c))).
Proof.
  intros [Hs Hd Hdis Hsb Hdb]. split; assumption.
Qed.

Lemma next_state_ok (a : action) (s : SessionState) (c : clock) :
  store_ok s -> store_ok (next_state a s c).
Proof.
  destruct a; unfold next_state, step.
  - apply add_vehicle_ok.
  - apply sell_vehicle_ok.
  - apply add_expense_ok.
Qed.

Lemma reachable_ok (s : SessionState) : reachable s -> store_ok s.
Proof.
  induction 1 as [|a s c _ IH].
  - apply initial_state_ok.
  - apply next_state_ok. exact IH.
Qed.

Lemma later_reachable (s s' : SessionState) :
  reachable s -> later s s' -> reachable s'.
Proof.
  intros Hs. induction 1 as [|a s s' c _ IH].
  - exact Hs.
  - apply reachable_step. apply IH. exact Hs.
Qed.

(** Sales are never taken back. *)
Lemma next_state_sold (a : action) (s : SessionState) (c : clock) (i : Z) :
  In i (sold_ids s) -> In i (sold_ids (next_state a s c)).
Proof.
  intros Hin. destruct a as [b m y p e | vid n p | d x];
    unfold next_state, step; try exact Hin.
  destruct (find_vehicle_by_id vid s) as [v|] eqn:Hfind.
  - rewrite (sell_vehicle_found _ _ _ _ _ _ Hfind).
    unfold sold_ids in *. simpl. rewrite map_app, in_app_iff. auto.
  - rewrite (sell_vehicle_not_found _ _ _ _ _ Hfind). exact Hin.
Qed.

Lemma later_sold (s s' : SessionState) (i : Z) :
  later s s' -> In i (sold_ids s) -> In i (sold_ids s').
Proof.
  induction 1 as [|a s s' c _ IH]; intros Hin.
  - exact Hin.
  - apply next_state_sold. apply IH. exact Hin.
Qed.

(** *** Counters *)

Lemma counters_count (s : SessionState) :
  reachable s ->
  next_vehicle_id s
    = 1 + Z.of_nat (List.length (inventory s) + List.length (sales s))
  /\ next_vehicle_id s = 1 + Z.of_nat (List.length (purchase_history s))
  /\ next_sale_id s = 1 + Z.of_nat (List.length (sales s))
  /\ next_expense_id s = 1 + Z.of_nat (List.length (expenses s)).
Proof.
  induction 1 as [|a s c _ (IHv & IHp & IHs & IHe)].
  - repeat split.
  - destruct a as [b m y p e | vid n p | d x]; unfold next_state, step.
    + unfold add_vehicle. store_fields.
      rewrite length_app. cbn [List.length]. repeat split; lia.
    + destruct (find_vehicle_by_id vid s) as [v|] eqn:Hfind.
      * rewrite (sell_vehicle_found _ _ _ _ _ _ Hfind). store_fields.
        pose proof (remove_length vid (inventory s)
                      (remove_after_find _ _ _ Hfind)) as Hlen.
        rewrite length_app. cbn [List.length]. repeat split; lia.
      * rewrite (sell_vehicle_not_found _ _ _ _ _ Hfind). auto.
    + unfold add_expense. store_fields.
      rewrite length_app. cbn [List.length]. repeat split; lia.
Qed.

Lemma next_vehicle_id_step (a : action) (s : SessionState) (c : clock) :
  next_vehicle_id (next_state a s c)
  = match a with
    | AddVehicle _ _ _ _ _ => next_vehicle_id s + 1
    | _ => next_vehicle_id s
    end.
Proof.
  destruct a as [b m y p e | vid n p | d x]; unfold next_state, step;
    try reflexivity.
  destruct (find_vehicle_by_id vid s) as [v|] eqn:Hfind.
  - rewrite (sell_vehicle_found _ _ _ _ _ _ Hfind). reflexivity.
  - rewrite (sell_vehicle_not_found _ _ _ _ _ Hfind). reflexivity.
Qed.

(** The identifiers a sequence of operations gives to new vehicles increase
    strictly, starting at the counter. *)
Lemma vehicle_ids_assigned_sorted (acts : list action) :
  forall (s : SessionState) (c : clock),
  StronglySorted Z.lt (vehicle_ids_assigned acts s c)
  /\ Forall (fun i => next_vehicle_id s <= i) (vehicle_ids_assigned acts s c).
Proof.
  induction acts as [|a rest IH]; intros s c; simpl.
  - split; constructor.
  - pose proof (next_vehicle_id_step a s c) as Hnext.
    unfold next_state in Hnext.
    destruct (step a s c) as [[s1 n] c1] eqn:Hstep. simpl in Hnext.
    destruct (IH s1 c1) as [Hsorted Hall].
    destruct a as [b m y p e | vid nm p | d x].
    + assert (Hhead : exists tl,
                inventory s1 = Vehicle.mk (next_vehicle_id s) (strip b)
                                 (strip m) y p e (isoformat (c 0%nat)) :: tl).
      { unfold step, add_vehicle in Hstep. cbn [utcnow] in Hstep.
        injection Hstep as <- _ _. eexists. reflexivity. }
      destruct Hhead as [tl ->]. cbn [Vehicle.id].
      rewrite Hnext in Hall. split.
      * constructor; [exact Hsorted|].
        eapply Forall_impl; [|exact Hall]. cbn beta. intros; lia.
      * constructor; [lia|].
        eapply Forall_impl; [|exact Hall]. cbn beta. intros; lia.
    + rewrite Hnext in Hall. split; assumption.
    + rewrite Hnext in Hall. split; assumption.
Qed.

Lemma strongly_sorted_nodup (l : list Z) : StronglySorted Z.lt l -> NoDup l.
Proof.
  induction 1 as [|x l _ IH Hall]; constructor; [|exact IH].
  intros Hin. rewrite Forall_forall in Hall. specialize (Hall x Hin). lia.
Qed.

(** *** Purchase costs *)



(** *** Dates written by the program

    With a library whose reader accepts what its writer produces, every date
    in a reachable store parses, and the aggregator returns the sums over the
    records whose date parses to each month. *)

Lemma reachable_dates_parse (s : SessionState) :
  (forall dt, parses (isoformat dt) = true) ->
  reachable s -> dates_parse s = true.
Proof.
  intros Hround. induction 1 as [|a s c _ IH]; [reflexivity|].
  unfold dates_parse in *.
  apply andb_true_iff in IH. destruct IH as [IH Hp].
  apply andb_true_iff in IH. destruct IH as [Hs He].
  destruct a as [b m y p e | vid n p | d x]; unfold next_state, step.
  - unfold add_vehicle. store_fields.
    rewrite Hs, He, forallb_app, Hp. cbn [forallb PurchaseEvent.date].
    rewrite Hround. reflexivity.
  - destruct (find_vehicle_by_id vid s) as [v|] eqn:Hfind.
    + rewrite (sell_vehicle_found _ _ _ _ _ _ Hfind). store_fields.
      rewrite He, Hp, forallb_app, Hs.
      unfold sale_of. cbn [forallb SaleRecord.date].
      rewrite Hround. reflexivity.
    + rewrite (sell_vehicle_not_found _ _ _ _ _ Hfind). store_fields.
      rewrite Hs, He, Hp. reflexivity.
  - unfold add_expense. store_fields.
    rewrite Hs, Hp, forallb_app, He. cbn [forallb ExpenseRecord.date].
    rewrite Hround. reflexivity.
Qed.

Lemma reachable_aggregation_of_parsed (year : Z) (s : SessionState) (c : clock) :
  (forall dt, parses (isoformat dt) = true) ->
  reachable s ->
  monthly_aggregation_for_year year s c = Some (aggregation_of_parsed year s, c).
Proof.
  intros Hround Hs. apply monthly_aggregation_of_parsed.
  apply reachable_dates_parse; assumption.
Qed.

(** Running [init_state] again on a store it has initialised changes
    nothing. *)
Lemma init_state_again (s : SessionState) : init_state (stored s) = s.
Proof. destruct s. reflexivity. Qed.

Lemma run_reachable (acts : list action) :
  forall (s : SessionState) (c : clock),
  reachable s -> reachable (fst (fst (run acts s c))).
Proof.
  induction acts as [|a rest IH]; intros s c Hs; simpl; [exact Hs|].
  pose proof (reachable_step a s c Hs) as H1. unfold next_state in H1.
  destruct (step a s c) as [[s1 n] c1]. simpl in H1.
  specialize (IH s1 c1 H1).
  destruct (run rest s1 c1) as [[s2 ns] c2]. exact IH.
Qed.

Lemma later_after_step (a : action) (s s' : SessionState) (c : clock) :
  later (next_state a s c) s' -> later s s'.
Proof.
  intros H. remember (next_state a s c) as s1 eqn:E.
  induction H as [s1|b s1 s2 c2 _ IH]; subst.
  - apply later_step. apply later_refl.
  - apply later_step. apply IH. reflexivity.
Qed.

Lemma run_later (acts : list action) :
  forall (s : SessionState) (c : clock), later s (fst (fst (run acts s c))).
Proof.
  induction acts as [|a rest IH]; intros s c; simpl; [apply later_refl|].
  apply (later_after_step a s _ c). unfold next_state.
  destruct (step a s c) as [[s1 n] c1]. simpl.
  specialize (IH s1 c1).
  destruct (run rest s1 c1) as [[s2 ns] c2]. exact IH.
Qed.

(** *** The claims about selling, identifiers and purchase costs *)


(** C4.  Selling a vehicle whose identifier is not in stock fails with the
    error "Vehicle ID not found in inventory." and returns the store and the
    clock exactly as they were: no sale is appended, no vehicle removed, no
    counter advanced.  The same holds through the form, whatever the customer
    name. *)
Theorem sell_vehicle_unknown_id (vid : Z) (customer_name : string)
    (sale_price : money) (s : SessionState) (c : clock) :
  ~ In vid (stock_ids s) ->
  find_vehicle_by_id vid s = None
  /\ sell_vehicle vid customer_name sale_price s c
     = (s, st_error "Vehicle ID not found in inventory.", c)
  /\ fst (fst (page_sell_vehicle true vid customer_name sale_price s c)) = s.
Proof.
  intros Hnot.
  assert (Hfind : find_vehicle_by_id vid s = None)
    by (apply find_in_none; exact Hnot).
  split; [exact Hfind|]. split.
  - apply sell_vehicle_not_found. exact Hfind.
  - unfold page_sell_vehicle.
    destruct (py_not customer_name); [reflexivity|].
    rewrite (sell_vehicle_not_found _ _ _ _ _ Hfind). reflexivity.
Qed.

(** C5.  In every reachable store no vehicle identifier occurs in two sale
    records and none is both in stock and sold; and once [sell_vehicle] has
    sold [vid], the look-up of [vid] finds nothing in the store it returns
    and in every store reached from it by further operations. *)
Theorem sold_vehicle_never_in_stock_again (s : SessionState) :
  reachable s ->
  NoDup (sold_ids s)
  /\ (forall i, In i (stock_ids s) -> ~ In i (sold_ids s))
  /\ forall (c : clock) (vid : Z) (customer_name : string) (sale_price : money)
        (s' : SessionState),
      is_success (snd (fst (sell_vehicle vid customer_name sale_price s c)))
        = true ->
      later (fst (fst (sell_vehicle vid customer_name sale_price s c))) s' ->
      find_vehicle_by_id vid s' = None /\ ~ In vid (stock_ids s').
Proof.
  intros Hreach. pose proof (reachable_ok s Hreach) as Hok.
  split; [apply Hok|]. split; [apply Hok|].
  intros c vid customer_name sale_price s' Hsucc Hlater.
  destruct (sell_vehicle_success _ _ _ _ _ Hsucc) as [v Hfind].
  assert (Hreach1 : reachable
            (fst (fst (sell_vehicle vid customer_name sale_price s c))))
    by (apply (reachable_step (SellVehicle vid customer_name sale_price) s c);
        exact Hreach).
  assert (Hsold : In vid
            (sold_ids (fst (fst (sell_vehicle vid customer_name sale_price s c))))).
  { rewrite (sell_vehicle_found _ _ _ _ _ _ Hfind).
    unfold sold_ids. store_fields. rewrite map_app, in_app_iff.
    right. left. reflexivity. }
  pose proof (later_sold _ _ _ Hlater Hsold) as Hsold'.
  pose proof (reachable_ok s' (later_reachable _ _ Hreach1 Hlater)) as Hok'.
  assert (Hnot : ~ In vid (stock_ids s')).
  { intros Hin. exact (ok_disjoint s' Hok' vid Hin Hsold'). }
  split; [|exact Hnot].
  apply find_in_none. exact Hnot.
Qed.

(** C6.  The three counters start at 1 and in every reachable store each is
    one more than the number of entities created so far (vehicles in stock or
    sold, sales, expenses), so a counter advances exactly when its entity is
    created.  The identifiers any further sequence of operations gives to the
    vehicles it adds are strictly increasing, hence distinct, and none of
    them is the identifier of a vehicle in stock or of one already sold. *)
Theorem identifiers_count_creations (s : SessionState) (acts : list action)
    (c : clock) :
  reachable s ->
  (next_vehicle_id initial_state = 1
   /\ next_sale_id initial_state = 1
   /\ next_expense_id initial_state = 1)
  /\ (next_vehicle_id s
        = 1 + Z.of_nat (List.length (inventory s) + List.length (sales s))
      /\ next_sale_id s = 1 + Z.of_nat (List.length (sales s))
      /\ next_expense_id s = 1 + Z.of_nat (List.length (expenses s)))
  /\ (StronglySorted Z.lt (vehicle_ids_assigned acts s c)
      /\ NoDup (vehicle_ids_assigned acts s c)
      /\ forall i, In i (vehicle_ids_assigned acts s c) ->
           ~ In i (stock_ids s) /\ ~ In i (sold_ids s)).
Proof.
  intros Hreach. split; [repeat split|].
  destruct (counters_count s Hreach) as (Hv & _ & Hs & He).
  split; [repeat split; assumption|].
  destruct (vehicle_ids_assigned_sorted acts s c) as [Hsorted Hall].
  split; [exact Hsorted|]. split; [apply strongly_sorted_nodup; exact Hsorted|].
  intros i Hin. rewrite Forall_forall in Hall. specialize (Hall i Hin).
  pose proof (reachable_ok s Hreach) as Hok.
  split; intros Hused.
  - apply (ok_stock_below s Hok) in Hused. lia.
  - apply (ok_sold_below s Hok) in Hused. lia.
Qed.


End Store.

(** *** Instances on sample stores *)

Lemma store_with_corolla_reachable :
  reachable (lib := py_datetime) store_with_corolla.
Proof.
  exact (run_reachable (lib := py_datetime)
           [AddVehicle "Toyota" "Corolla" 2020 10000 12000]
           initial_state mid_january reachable_init).
Qed.

Lemma store_after_scenario_reachable :
  reachable (lib := py_datetime) store_after_scenario.
Proof. apply run_reachable, reachable_init. Qed.


Lemma sell_vehicle_unknown_id_witness :
  ~ In 7 (stock_ids store_with_corolla)
  /\ sell_vehicle (lib := py_datetime) 7 "Alice" 11000 store_with_corolla
       mid_january
     = (store_with_corolla, st_error "Vehicle ID not found in inventory.",
        mid_january).
Proof.
  assert (H : ~ In 7 (stock_ids store_with_corolla)).
  { simpl. intros [H|[]]. discriminate H. }
  split; [exact H|].
  exact (proj1 (proj2 (sell_vehicle_unknown_id (lib := py_datetime)
                         7 "Alice" 11000 store_with_corolla mid_january H))).
Defined.

Lemma sold_vehicle_never_in_stock_again_witness :
  reachable (lib := py_datetime) store_with_corolla
  /\ is_success (snd (fst corolla_sale)) = true
  /\ later (lib := py_datetime) (fst (fst corolla_sale)) store_after_corolla_sale
  /\ find_vehicle_by_id 1 store_after_corolla_sale = None.
Proof.
  split; [exact store_with_corolla_reachable|]. split; [reflexivity|].
  split; [apply run_later|].
  destruct (sold_vehicle_never_in_stock_again (lib := py_datetime) _
              store_with_corolla_reachable) as (_ & _ & Hgone).
  exact (proj1 (Hgone mid_january 1 "Alice"%string 11000
                  store_after_corolla_sale eq_refl
                  (run_later (lib := py_datetime) _ _ _))).
Defined.

Lemma identifiers_count_creations_witness :
  reachable (lib := py_datetime) store_after_scenario
  /\ next_vehicle_id store_after_scenario = 2
  /\ vehicle_ids_assigned (lib := py_datetime) more_purchases
       store_after_scenario mid_january = [2; 3]
  /\ NoDup (vehicle_ids_assigned (lib := py_datetime) more_purchases
              store_after_scenario mid_january).
Proof.
  split; [exact store_after_scenario_reachable|].
  split; [reflexivity|]. split; [reflexivity|].
  exact (proj1 (proj2 (proj2 (proj2
           (identifiers_count_creations (lib := py_datetime)
              store_after_scenario more_purchases mid_january
              store_after_scenario_reachable))))).
Defined.


(** ** Totals, adjusted balance and the financial summary *)

Section Figures.

Context {lib : DatetimeLib}.



End Figures.

(** ** Validation in the forms *)

Section Forms.

Context {lib : DatetimeLib}.

(** A form submitted with an empty text field shows an error and leaves the
    store and the clock alone. *)
Lemma forms_reject_empty_text (s : SessionState) (c : clock)
    (brand model customer desc : string) (year vid : Z) (p e : money) :
  (brand = EmptyString \/ model = EmptyString ->
   page_add_vehicle true brand model year p e s c
   = (s, Some (st_error "Brand and model cannot be empty."), c))
  /\ (customer = EmptyString ->
      page_sell_vehicle true vid customer p s c
      = (s, Some (st_error "Customer name required."), c))
  /\ (desc = EmptyString ->
      page_expenses true desc p s c
      = (s, Some (st_error "Description required."), c)).
Proof.
  repeat split.
  - intros [-> | ->]; unfold page_add_vehicle; cbn [py_not orb];
      [|rewrite orb_true_r]; reflexivity.
  - intros ->. reflexivity.
  - intros ->. reflexivity.
Qed.

(** A text field that is not empty passes the check of its form, blank or
    not, and reaches the operation. *)
Lemma forms_accept_nonempty_text (s : SessionState) (c : clock)
    (brand model : string) (year : Z) (p e : money) :
  brand <> EmptyString -> model <> EmptyString ->
  fst (fst (page_add_vehicle true brand model year p e s c))
  = fst (fst (add_vehicle brand model year p e s c)).
Proof.
  intros Hb Hm. unfold page_add_vehicle.
  destruct brand; [contradiction|]. destruct model; [contradiction|].
  reflexivity.
Qed.

End Forms.

(** C8, at the inputs where the program departs from it.  A brand, a customer
    name or a description made of one blank is not empty for the check of the
    form, so the operation runs, and the field is stored empty after
    trimming: the vehicle is added with an empty brand, its counter advances
    and its purchase is recorded; the sale and the expense are recorded with
    an empty customer name and an empty description. *)
Theorem blank_fields_pass_validation :
  (let r := page_add_vehicle (lib := py_datetime) true " " "Corolla" 2020
              10000 12000 initial_state mid_january in
   snd (fst r) = Some (st_success "Vehicle added with ID: 1")
   /\ map Vehicle.brand (inventory (fst (fst r))) = [EmptyString]
   /\ next_vehicle_id (fst (fst r)) = 2
   /\ map PurchaseEvent.amount (purchase_history (fst (fst r))) = [10000])
  /\ (let r := page_sell_vehicle (lib := py_datetime) true 1 " " 11000
                 store_with_corolla mid_january in
      snd (fst r) = Some (st_success "Vehicle ID 1 sold. Sale ID: 1")
      /\ map SaleRecord.customer_name (sales (fst (fst r))) = [EmptyString]
      /\ next_sale_id (fst (fst r)) = 2)
  /\ (let r := page_expenses (lib := py_datetime) true " " 150
                 initial_state mid_january in
      snd (fst r) = Some (st_success "Expense added with ID: 1")
      /\ map ExpenseRecord.description (expenses (fst (fst r))) = [EmptyString]
      /\ next_expense_id (fst (fst r)) = 2).
Proof. cbv zeta. repeat split; vm_compute; reflexivity. Qed.

(** * Further properties of the program *)

(** ** Look-up, removal and the inventory operations *)

Lemma find_in_split (vid : Z) (inv : list Vehicle.t) (v : Vehicle.t) :
  find_in vid inv = Some v ->
  exists l1 l2, inv = l1 ++ v :: l2
    /\ Vehicle.id v = vid /\ ~ In vid (map Vehicle.id l1).
Proof.
  induction inv as [|w rest IH]; simpl; [discriminate|].
  destruct (Z.eqb_spec (Vehicle.id w) vid) as [E|E].
  - intros H. injection H as <-. exists [], rest. simpl. auto.
  - intros H. destruct (IH H) as (l1 & l2 & -> & Hid & Hnot).
    exists (w :: l1), l2. simpl. repeat split; auto.
    intros [H1|H1]; auto.
Qed.

(** [find_vehicle_by_id] returns the first vehicle of the inventory that
    carries the identifier, and nothing exactly when no vehicle in stock
    carries it. *)
Theorem find_vehicle_by_id_first_match (vid : Z) (s : SessionState) :
  match find_vehicle_by_id vid s with
  | Some v =>
      exists l1 l2, inventory s = l1 ++ v :: l2
        /\ Vehicle.id v = vid /\ ~ In vid (map Vehicle.id l1)
  | None => ~ In vid (stock_ids s)
  end.
Proof.
  unfold find_vehicle_by_id.
  destruct (find_in vid (inventory s)) as [v|] eqn:H.
  - apply find_in_split. exact H.
  - apply find_in_none. exact H.
Qed.

(** [remove_vehicle_by_id] pops exactly the vehicle the look-up finds, the
    first with that identifier, keeping the others in their order; when the
    look-up finds none it reports [False] and the inventory is as before. *)
Theorem remove_vehicle_by_id_first_match (vid : Z) (inv : list Vehicle.t) :
  match find_in vid inv with
  | Some v =>
      exists l1 l2, inv = l1 ++ v :: l2
        /\ ~ In vid (map Vehicle.id l1)
        /\ remove_vehicle_by_id vid inv = (true, l1 ++ l2)
  | None => remove_vehicle_by_id vid inv = (false, inv)
  end.
Proof.
  induction inv as [|w rest IH]; simpl; [reflexivity|].
  destruct (Z.eqb_spec (Vehicle.id w) vid) as [E|E].
  - exists [], rest. simpl. auto.
  - destruct (find_in vid rest) as [v|].
    + destruct IH as (l1 & l2 & -> & Hnot & ->).
      exists (w :: l1), l2. simpl. repeat split; auto.
      intros [H1|H1]; auto.
    + rewrite IH. reflexivity.
Qed.

Lemma find_in_after_remove (vid vid' : Z) (inv : list Vehicle.t) :
  vid' <> vid ->
  find_in vid' (snd (remove_vehicle_by_id vid inv)) = find_in vid' inv.
Proof.
  intros Hne. induction inv as [|w rest IH]; simpl; [reflexivity|].
  destruct (Z.eqb_spec (Vehicle.id w) vid) as [E|E]; simpl.
  - destruct (Z.eqb_spec (Vehicle.id w) vid'); [congruence | reflexivity].
  - destruct (remove_vehicle_by_id vid rest) as [b rest']. simpl in *.
    rewrite IH. reflexivity.
Qed.

Section Inventory.

Context {lib : DatetimeLib}.

(** After [add_vehicle], looking up the identifier it gave out returns the
    new vehicle, with brand and model trimmed; every other look-up answers as
    before. *)
Theorem add_vehicle_then_find (brand model : string) (year : Z)
    (purchase_price expected_sell_price : money) (s : SessionState) (c : clock)
    (vid : Z) :
  find_vehicle_by_id vid
    (fst (fst (add_vehicle brand model year purchase_price expected_sell_price
                 s c)))
  = if vid =? next_vehicle_id s
    then Some (Vehicle.mk (next_vehicle_id s) (strip brand) (strip model) year
                 purchase_price expected_sell_price
                 (isoformat (fst (utcnow c))))
    else find_vehicle_by_id vid s.
Proof.
  unfold find_vehicle_by_id, add_vehicle. store_fields.
  cbn [find_in Vehicle.id]. rewrite (Z.eqb_sym (next_vehicle_id s) vid).
  reflexivity.
Qed.

(** In a store whose stock identifiers are distinct, a vehicle that has been
    sold cannot be sold again: the second [sell_vehicle] reports that the
    identifier is not in the inventory and changes nothing. *)
Theorem sell_vehicle_twice (vid : Z) (name1 name2 : string) (p1 p2 : money)
    (s : SessionState) (c c' : clock) :
  NoDup (stock_ids s) ->
  is_success (snd (fst (sell_vehicle vid name1 p1 s c))) = true ->
  sell_vehicle vid name2 p2 (fst (fst (sell_vehicle vid name1 p1 s c))) c'
  = (fst (fst (sell_vehicle vid name1 p1 s c)),
     st_error "Vehicle ID not found in inventory.", c').
Proof.
  intros Hnd Hsucc.
  destruct (sell_vehicle_success _ _ _ _ _ Hsucc) as [v Hfind].
  apply sell_vehicle_not_found.
  rewrite (sell_vehicle_found _ _ _ _ _ _ Hfind).
  unfold find_vehicle_by_id. store_fields.
  apply find_in_none. apply remove_ids_gone. exact Hnd.
Qed.

(** Selling one vehicle does not disturb the look-up of any other. *)
Theorem sell_vehicle_keeps_other_vehicles (vid vid' : Z) (name : string)
    (p : money) (s : SessionState) (c : clock) :
  vid' <> vid ->
  find_vehicle_by_id vid' (fst (fst (sell_vehicle vid name p s c)))
  = find_vehicle_by_id vid' s.
Proof.
  intros Hne.
  destruct (find_vehicle_by_id vid s) as [v|] eqn:Hfind.
  - rewrite (sell_vehicle_found _ _ _ _ _ _ Hfind).
    unfold find_vehicle_by_id. store_fields.
    apply find_in_after_remove. exact Hne.
  - rewrite (sell_vehicle_not_found _ _ _ _ _ Hfind). reflexivity.
Qed.

End Inventory.

Lemma sell_vehicle_twice_witness :
  NoDup (stock_ids store_with_corolla)
  /\ is_success (snd (fst corolla_sale)) = true
  /\ sell_vehicle (lib := py_datetime) 1 "Bob" 12000 (fst (fst corolla_sale))
       mid_january
     = (fst (fst corolla_sale), st_error "Vehicle ID not found in inventory.",
        mid_january).
Proof.
  assert (H : NoDup (stock_ids store_with_corolla)).
  { repeat constructor. intros []. }
  split; [exact H|]. split; [reflexivity|].
  exact (sell_vehicle_twice (lib := py_datetime) 1 "Alice" "Bob" 11000 12000
           store_with_corolla mid_january mid_january H eq_refl).
Defined.

Lemma sell_vehicle_keeps_other_vehicles_witness :
  2 <> 1
  /\ find_vehicle_by_id 2
       (fst (fst (sell_vehicle (lib := py_datetime) 1 "Alice" 11000
                    store_with_two_cars mid_january)))
     = find_vehicle_by_id 2 store_with_two_cars.
Proof.
  assert (H : 2 <> 1) by discriminate.
  split; [exact H|].
  exact (sell_vehicle_keeps_other_vehicles (lib := py_datetime) 1 2 "Alice"
           11000 store_with_two_cars mid_january H).
Defined.

(** ** Trimming *)

Lemma rstrip_keeps_head (a : ascii) (r : string) :
  isspace a = false -> rstrip (String a r) = String a (rstrip r).
Proof.
  intros Ha. cbn [rstrip]. rewrite Ha. destruct (rstrip r); reflexivity.
Qed.

Lemma rstrip_idempotent (s : string) : rstrip (rstrip s) = rstrip s.
Proof.
  induction s as [|a r IH]; [reflexivity|].
  cbn [rstrip]. destruct (rstrip r) as [|b r'] eqn:Hr.
  - destruct (isspace a) eqn:Ha; [reflexivity|].
    cbn [rstrip]. rewrite Ha. reflexivity.
  - cbn [rstrip]. cbn [rstrip] in IH. fold (rstrip (String b r')).
    rewrite IH. reflexivity.
Qed.

Lemma lstrip_head (s : string) :
  lstrip s = EmptyString
  \/ exists a r, lstrip s = String a r /\ isspace a = false.
Proof.
  induction s as [|a r IH]; [left; reflexivity|].
  cbn [lstrip]. destruct (isspace a) eqn:Ha; [exact IH|].
  right. exists a, r. auto.
Qed.

(** [strip] leaves a string it has trimmed as it is. *)
Lemma strip_idempotent (s : string) : strip (strip s) = strip s.
Proof.
  unfold strip. destruct (lstrip_head s) as [E | (a & r & E & Ha)]; rewrite E.
  - reflexivity.
  - rewrite (rstrip_keeps_head a r Ha). cbn [lstrip]. rewrite Ha.
    rewrite <- (rstrip_keeps_head a r Ha). apply rstrip_idempotent.
Qed.

Lemma remove_incl (vid : Z) (inv : list Vehicle.t) (v : Vehicle.t) :
  In v (snd (remove_vehicle_by_id vid inv)) -> In v inv.
Proof.
  induction inv as [|w rest IH]; simpl; [tauto|].
  destruct (Vehicle.id w =? vid); simpl; [auto|].
  destruct (remove_vehicle_by_id vid rest) as [b rest']. simpl in *.
  intros [H|H]; auto.
Qed.

Lemma remove_ids_sorted (vid : Z) (inv : list Vehicle.t) :
  StronglySorted Z.gt (map Vehicle.id inv) ->
  StronglySorted Z.gt (map Vehicle.id (snd (remove_vehicle_by_id vid inv))).
Proof.
  induction inv as [|w rest IH]; simpl; [auto|].
  intros H. inversion H as [|x l Hs Hall]; subst.
  destruct (Vehicle.id w =? vid); simpl; [assumption|].
  pose proof (fun i => remove_ids_incl vid i rest) as Hincl.
  destruct (remove_vehicle_by_id vid rest) as [b rest']. simpl in *.
  constructor; [auto|].
  rewrite Forall_forall in *. intros i Hi. apply Hall, Hincl, Hi.
Qed.

(** ** What every reachable store satisfies *)

Section Invariants.

Context {lib : DatetimeLib}.

(** In every reachable store the sales carry the sale identifiers 1, 2, 3,
    ... in the order they were made, the expenses the expense identifiers 1,
    2, 3, ..., and the inventory lists its vehicles by strictly decreasing
    identifier, the newest first. *)
Theorem identifiers_in_order (s : SessionState) :
  reachable s ->
  map SaleRecord.sale_id (sales s)
    = map Z.of_nat (seq 1 (List.length (sales s)))
  /\ map ExpenseRecord.expense_id (expenses s)
     = map Z.of_nat (seq 1 (List.length (expenses s)))
  /\ StronglySorted Z.gt (stock_ids s).
Proof.
  induction 1 as [|a s c Hs (IHs & IHe & IHv)].
  - repeat split; constructor.
  - destruct (counters_count s Hs) as (_ & _ & Hns & Hne).
    pose proof (reachable_ok s Hs) as Hok.
    destruct a as [b m y p e | vid n p | d x]; unfold next_state, step.
    + unfold add_vehicle, stock_ids. store_fields. cbn [map Vehicle.id].
      repeat split; [assumption | assumption |].
      constructor; [exact IHv|].
      rewrite Forall_forall. intros i Hi.
      apply (ok_stock_below s Hok) in Hi. lia.
    + destruct (find_vehicle_by_id vid s) as [v|] eqn:Hfind.
      * rewrite (sell_vehicle_found _ _ _ _ _ _ Hfind).
        unfold stock_ids. store_fields. repeat split.
        -- rewrite map_app, length_app, IHs. cbn [List.length map].
           rewrite Nat.add_1_r, seq_S, map_app. cbn [map].
           unfold sale_of. cbn [SaleRecord.sale_id].
           do 2 f_equal. lia.
        -- exact IHe.
        -- apply remove_ids_sorted. exact IHv.
      * rewrite (sell_vehicle_not_found _ _ _ _ _ Hfind). auto.
    + unfold add_expense, stock_ids. store_fields.
      repeat split; [assumption | | assumption].
      rewrite map_app, length_app, IHe. cbn [List.length map].
      rewrite Nat.add_1_r, seq_S, map_app. cbn [map ExpenseRecord.expense_id].
      do 2 f_equal. lia.
Qed.


(** Every vehicle in stock still has the purchase event that was recorded
    when it was added, with its price and date, and the purchase history
    counts every vehicle ever bought: those in stock and those sold, the two
    numbers at the foot of the financial summary. *)
Theorem every_vehicle_has_its_purchase (s : SessionState) :
  reachable s ->
  (forall v, In v (inventory s) ->
     In (PurchaseEvent.mk (Vehicle.purchase_price v) (Vehicle.date_added v))
        (purchase_history s))
  /\ List.length (purchase_history s)
     = (vehicles_in_inventory s + vehicles_sold s)%nat.
Proof.
  intros Hs. split.
  - induction Hs as [|a s c Hs IH]; [intros v []|].
    destruct a as [b m y p e | vid n p | d x]; unfold next_state, step.
    + unfold add_vehicle. store_fields. intros v [<-|Hin].
      * apply in_or_app. right. left. reflexivity.
      * apply in_or_app. left. apply IH. exact Hin.
    + destruct (find_vehicle_by_id vid s) as [w|] eqn:Hfind.
      * rewrite (sell_vehicle_found _ _ _ _ _ _ Hfind). store_fields.
        intros v Hin. apply IH. eapply remove_incl. exact Hin.
      * rewrite (sell_vehicle_not_found _ _ _ _ _ Hfind). exact IH.
    + exact IH.
  - destruct (counters_count s Hs) as (Hv & Hp & _).
    unfold vehicles_in_inventory, vehicles_sold. lia.
Qed.

(** Every text field a reachable store holds is trimmed: brand and model of
    the vehicles in stock, customer names of the sales, descriptions of the
    expenses have no white space at either end. *)
Theorem stored_texts_are_trimmed (s : SessionState) :
  reachable s -> texts_trimmed s.
Proof.
  induction 1 as [|a s c _ (IHv & IHs & IHe)].
  - split; [|split]; intros ? [].
  - destruct a as [b m y p e | vid n p | d x]; unfold next_state, step.
    + unfold add_vehicle, texts_trimmed. store_fields.
      split; [|split; assumption].
      intros v [<-|Hin]; [|apply IHv; exact Hin].
      cbn [Vehicle.brand Vehicle.model].
      split; apply strip_idempotent.
    + destruct (find_vehicle_by_id vid s) as [w|] eqn:Hfind.
      * rewrite (sell_vehicle_found _ _ _ _ _ _ Hfind).
        unfold texts_trimmed. store_fields. split; [|split].
        -- intros v Hin. apply IHv. eapply remove_incl. exact Hin.
        -- intros r Hin. apply in_app_or in Hin.
           destruct Hin as [Hin|[<-|[]]]; [apply IHs; exact Hin|].
           apply strip_idempotent.
        -- exact IHe.
      * rewrite (sell_vehicle_not_found _ _ _ _ _ Hfind).
        split; [|split]; assumption.
    + unfold add_expense, texts_trimmed. store_fields.
      split; [|split]; [assumption | assumption |].
      intros r Hin. apply in_app_or in Hin.
      destruct Hin as [Hin|[<-|[]]]; [apply IHe; exact Hin|].
      apply strip_idempotent.
Qed.

End Invariants.

Lemma identifiers_in_order_witness :
  reachable (lib := py_datetime) store_with_two_cars
  /\ StronglySorted Z.gt (stock_ids store_with_two_cars).
Proof.
  assert (H : reachable (lib := py_datetime) store_with_two_cars)
    by (apply run_reachable, reachable_init).
  split; [exact H|].
  exact (proj2 (proj2 (identifiers_in_order (lib := py_datetime) _ H))).
Defined.


Lemma every_vehicle_has_its_purchase_witness :
  reachable (lib := py_datetime) store_after_corolla_sale
  /\ List.length (purchase_history store_after_corolla_sale)
     = (vehicles_in_inventory store_after_corolla_sale
        + vehicles_sold store_after_corolla_sale)%nat.
Proof.
  assert (H : reachable (lib := py_datetime) store_after_corolla_sale).
  { apply run_reachable.
    apply (reachable_step (SellVehicle 1 "Alice" 11000) store_with_corolla
             mid_january).
    exact store_with_corolla_reachable. }
  split; [exact H|].
  exact (proj2 (every_vehicle_has_its_purchase (lib := py_datetime) _ H)).
Defined.

Lemma stored_texts_are_trimmed_witness :
  reachable (lib := py_datetime) store_after_scenario
  /\ texts_trimmed store_after_scenario.
Proof.
  split; [exact store_after_scenario_reachable|].
  exact (stored_texts_are_trimmed (lib := py_datetime) _
           store_after_scenario_reachable).
Defined.

(** ** More on the monthly aggregator *)

Lemma bucket_total_outside_year (year m : Z) (keys : list (Z * Z)) :
  forall amounts : list money,
  Forall (fun k => fst k <> year) keys ->
  bucket_total year m keys amounts = 0.
Proof.
  induction keys as [|k ks IH]; intros amounts Hall; [reflexivity|].
  destruct amounts as [|a amounts]; [reflexivity|].
  inversion Hall as [|? ? Hk Hks]; subst.
  rewrite bucket_total_cons, (IH amounts Hks). unfold in_month.
  replace (fst k =? year) with false by (symmetry; apply Z.eqb_neq; exact Hk).
  reflexivity.
Qed.

Lemma bucket_total_nonnegative (year m : Z) (keys : list (Z * Z)) :
  forall amounts : list money,
  Forall (fun a => 0 <= a) amounts ->
  0 <= bucket_total year m keys amounts.
Proof.
  induction keys as [|k ks IH]; intros amounts Hall.
  - unfold bucket_total. simpl. lia.
  - destruct amounts as [|a amounts].
    + unfold bucket_total. simpl. lia.
    + inversion Hall as [|? ? Ha Has]; subst.
      rewrite bucket_total_cons. specialize (IH amounts Has).
      destruct (in_month year m k); lia.
Qed.

Section AggregatorMore.

Context {lib : DatetimeLib}.

(** When no record has a month key in the selected year, be it because the
    store is empty, both arrays are twelve zeros. *)
Theorem aggregation_of_a_year_without_records (year : Z) (s : SessionState)
    (c : clock) :
  let ks := month_keys (map SaleRecord.date (sales s)) c in
  let ke := month_keys (map ExpenseRecord.date (expenses s)) (snd ks) in
  let kp := month_keys (map PurchaseEvent.date (purchase_history s)) (snd ke) in
  Forall (fun k => fst k <> year) (fst ks ++ fst ke ++ fst kp) ->
  option_map fst (monthly_aggregation_for_year year s c)
  = Some (repeat 0 12, repeat 0 12).
Proof.
  intros ks ke kp Hall.
  apply Forall_app in Hall. destruct Hall as [Hs Hall].
  apply Forall_app in Hall. destruct Hall as [He Hp].
  rewrite monthly_aggregation_keys. fold ks ke kp. cbn [option_map fst].
  f_equal. f_equal.
  - change (repeat 0 12) with (map (fun _ : Z => 0) month_numbers).
    apply map_ext. intros m.
    rewrite !bucket_total_outside_year by assumption. reflexivity.
  - change (repeat 0 12) with (map (fun _ : Z => 0) month_numbers).
    apply map_ext. intros m.
    rewrite bucket_total_outside_year by assumption. reflexivity.
Qed.

(** Amounts that are not negative give buckets that are not negative. *)
Theorem aggregation_nonnegative (year : Z) (s : SessionState) (c : clock) :
  Forall (fun r => 0 <= SaleRecord.sale_price r) (sales s) ->
  Forall (fun r => 0 <= ExpenseRecord.amount r) (expenses s) ->
  Forall (fun r => 0 <= PurchaseEvent.amount r) (purchase_history s) ->
  exists debit_month credit_month c1,
    monthly_aggregation_for_year year s c
      = Some ((debit_month, credit_month), c1)
    /\ Forall (fun x => 0 <= x) debit_month
    /\ Forall (fun x => 0 <= x) credit_month.
Proof.
  intros Hs He Hp. do 3 eexists.
  split; [apply monthly_aggregation_keys|].
  split; apply Forall_map; rewrite Forall_forall; intros m _.
  - pose proof (bucket_total_nonnegative year m
                  (fst (month_keys (map ExpenseRecord.date (expenses s))
                          (snd (month_keys (map SaleRecord.date (sales s)) c))))
                  (map ExpenseRecord.amount (expenses s))
                  (proj2 (Forall_map _ _ _) He)).
    pose proof (bucket_total_nonnegative year m
                  (fst (month_keys
                          (map PurchaseEvent.date (purchase_history s))
                          (snd (month_keys (map ExpenseRecord.date (expenses s))
                                  (snd (month_keys
                                          (map SaleRecord.date (sales s)) c))))))
                  (map PurchaseEvent.amount (purchase_history s))
                  (proj2 (Forall_map _ _ _) Hp)).
    lia.
  - apply bucket_total_nonnegative. apply Forall_map. exact Hs.
Qed.

End AggregatorMore.

Lemma aggregation_of_a_year_without_records_witness :
  option_map fst
    (monthly_aggregation_for_year (lib := py_datetime) 2023
       store_after_scenario mid_january)
  = Some (repeat 0 12, repeat 0 12).
Proof.
  apply (aggregation_of_a_year_without_records (lib := py_datetime)).
  vm_compute. repeat constructor; discriminate.
Defined.

Lemma aggregation_nonnegative_witness :
  exists debit_month credit_month c1,
    monthly_aggregation_for_year (lib := py_datetime) 2024
      store_after_scenario mid_january
      = Some ((debit_month, credit_month), c1)
    /\ Forall (fun x => 0 <= x) debit_month
    /\ Forall (fun x => 0 <= x) credit_month.
Proof.
  apply (aggregation_nonnegative (lib := py_datetime));
    vm_compute; repeat constructor; discriminate.
Defined.

(** ** The dashboard page *)

Lemma insert_year_in (y x : Z) (l : list Z) :
  In x (insert_year y l) <-> x = y \/ In x l.
Proof.
  induction l as [|z r IH]; cbn [insert_year In].
  - intuition.
  - destruct (y <? z); [cbn [In]; intuition|].
    destruct (Z.eqb_spec y z) as [->|Hne]; cbn [In].
    + intuition.
    + rewrite IH. intuition.
Qed.

Lemma insert_year_sorted (y : Z) (l : list Z) :
  StronglySorted Z.lt l -> StronglySorted Z.lt (insert_year y l).
Proof.
  induction 1 as [|z r Hs IH Hall]; cbn [insert_year].
  - repeat constructor.
  - destruct (Z.ltb_spec y z) as [Hlt|Hge].
    + constructor; [constructor; assumption|].
      constructor; [exact Hlt|].
      eapply Forall_impl; [|exact Hall]. cbn beta. intros; lia.
    + destruct (Z.eqb_spec y z) as [->|Hne].
      * constructor; assumption.
      * constructor; [exact IH|].
        rewrite Forall_forall in *. intros x Hx.
        apply insert_year_in in Hx. destruct Hx as [->|Hx]; [lia|auto].
Qed.

Lemma sorted_set_in (x : Z) (l : list Z) : In x (sorted_set l) <-> In x l.
Proof.
  induction l as [|y r IH]; cbn [sorted_set fold_right In]; [tauto|].
  fold (sorted_set r). rewrite insert_year_in, IH. intuition.
Qed.

Lemma sorted_set_sorted (l : list Z) : StronglySorted Z.lt (sorted_set l).
Proof.
  induction l as [|y r IH]; cbn [sorted_set fold_right]; [constructor|].
  apply insert_year_sorted. exact IH.
Qed.

(** The last of an ascending list of options is the largest. *)
Lemma default_year_is_latest (l : list Z) :
  StronglySorted Z.lt l -> l <> [] ->
  exists y, default_year l = Some y /\ In y l /\ Forall (fun x => x <= y) l.
Proof.
  induction 1 as [|z r Hs IH Hall]; intros Hne; [contradiction|].
  destruct r as [|z' r'].
  - exists z. cbn. repeat split; auto. repeat constructor. lia.
  - destruct IH as (y & Hy & Hin & Hle); [discriminate|].
    exists y. split; [|split].
    + cbn [default_year List.length] in *.
      rewrite Nat.sub_succ, Nat.sub_0_r in *. exact Hy.
    + right. exact Hin.
    + constructor; [|exact Hle].
      rewrite Forall_forall in Hall, Hle. specialize (Hall z' (or_introl eq_refl)).
      specialize (Hle z' (or_introl eq_refl)). lia.
Qed.

Lemma net_month_of_twelve (debit_month credit_month : list money) :
  List.length debit_month = 12%nat -> List.length credit_month = 12%nat ->
  exists net, net_month debit_month credit_month = Some net
    /\ List.length net = 12%nat
    /\ total net = total credit_month - total debit_month
    /\ forall m, In m month_numbers ->
         bucket net m = bucket credit_month m - bucket debit_month m.
Proof.
  intros Hd Hc.
  do 12 (destruct debit_month as [|? debit_month]; [discriminate Hd|]).
  destruct debit_month; [|discriminate Hd].
  do 12 (destruct credit_month as [|? credit_month]; [discriminate Hc|]).
  destruct credit_month; [|discriminate Hc].
  eexists. split; [reflexivity|]. split; [reflexivity|]. split.
  - unfold total. cbn [fold_right]. lia.
  - unfold month_numbers. cbn [In]. intros k H.
    repeat (destruct H as [<-|H]; [reflexivity|]). destruct H.
Qed.

Section DashboardPage.

Context {lib : DatetimeLib}.

(** The year selector of the dashboard always has options: they are listed
    in strictly ascending order without repetition, they are the current
    year together with the year of the month key of every purchase event,
    sale and expense, so the current year is offered even by an empty store,
    and the one shown first is the latest of them. *)
Theorem years_available_options (s : SessionState) (c : clock) :
  let kp := month_keys (map PurchaseEvent.date (purchase_history s))
              (snd (utcnow c)) in
  let ks := month_keys (map SaleRecord.date (sales s)) (snd kp) in
  let ke := month_keys (map ExpenseRecord.date (expenses s)) (snd ks) in
  let years := fst (years_available s c) in
  StronglySorted Z.lt years
  /\ In (datetime.year (fst (utcnow c))) years
  /\ (forall y, In y years <->
        y = datetime.year (fst (utcnow c))
        \/ In y (map fst (fst kp ++ fst ks ++ fst ke)))
  /\ snd (years_available s c) = snd ke
  /\ exists latest, default_year years = Some latest
       /\ In latest years /\ Forall (fun y => y <= latest) years.
Proof.
  intros kp ks ke years.
  assert (Hyears : years
            = sorted_set (map fst (fst kp) ++ map fst (fst ks)
                          ++ map fst (fst ke)
                          ++ [datetime.year (fst (utcnow c))])
          /\ snd (years_available s c) = snd ke).
  { subst years kp ks ke. unfold years_available. cbn [utcnow fst snd].
    destruct (month_keys (map PurchaseEvent.date (purchase_history s))
                (fun n => c (S n))) as [k1 c1]. cbn [fst snd].
    destruct (month_keys (map SaleRecord.date (sales s)) c1) as [k2 c2].
    cbn [fst snd].
    destruct (month_keys (map ExpenseRecord.date (expenses s)) c2) as [k3 c3].
    split; reflexivity. }
  destruct Hyears as [Hyears Hclock].
  assert (Hmem : forall y, In y years <->
            y = datetime.year (fst (utcnow c))
            \/ In y (map fst (fst kp ++ fst ks ++ fst ke))).
  { intros y. rewrite Hyears, sorted_set_in, !map_app, !in_app_iff.
    cbn [In]. intuition. }
  assert (Hsorted : StronglySorted Z.lt years)
    by (rewrite Hyears; apply sorted_set_sorted).
  assert (Hcur : In (datetime.year (fst (utcnow c))) years)
    by (apply Hmem; left; reflexivity).
  repeat split; try assumption; try (apply Hmem; assumption).
  apply default_year_is_latest; [exact Hsorted|].
  intros E. rewrite E in Hcur. destruct Hcur.
Qed.

(** The dashboard page never fails on an index: for every store, year and
    starting balance it comes back with its figures.  The two totals are the
    sums of the twelve debit and of the twelve credit buckets, the adjusted
    balance is the starting balance plus total credit minus total debit, and
    the net series has twelve entries, each the credit minus the debit of its
    month. *)
Theorem dashboard_page_figures (year : Z) (starting_balance : money)
    (s : SessionState) (c : clock) :
  exists d c1,
    dashboard_page year starting_balance s c = Some (d, c1)
    /\ dash_years d = fst (years_available s c)
    /\ Some (dash_debit_month d, dash_credit_month d)
       = option_map fst
           (monthly_aggregation_for_year year s (snd (years_available s c)))
    /\ dash_total_debit d = py_sum (dash_debit_month d)
    /\ dash_total_credit d = py_sum (dash_credit_month d)
    /\ dash_starting_balance d = starting_balance
    /\ dash_adjusted_balance d
       = starting_balance + (dash_total_credit d - dash_total_debit d)
    /\ List.length (dash_net d) = 12%nat
    /\ (forall m, In m month_numbers ->
          bucket (dash_net d) m
          = bucket (dash_credit_month d) m - bucket (dash_debit_month d) m).
Proof.
  unfold dashboard_page.
  destruct (years_available s c) as [years c1]. cbn [fst snd].
  rewrite monthly_aggregation_keys. cbn [bind_opt option_map fst].
  unfold totals_from_monthly.
  match goal with
  | |- context [net_month ?d ?cr] =>
      destruct (net_month_of_twelve d cr
                  (length_map _ month_numbers) (length_map _ month_numbers))
        as (net & Hnet & Hlen & _ & Hm)
  end.
  rewrite Hnet. cbn [bind_opt].
  do 2 eexists. split; [reflexivity|].
  cbn [dash_years dash_net dash_credit_month dash_debit_month
       dash_adjusted_balance dash_total_credit dash_total_debit
       dash_starting_balance].
  repeat split; auto.
Qed.

End DashboardPage.

(** ** Script runs *)

Section Runs.

Context {lib : DatetimeLib}.

Lemma dashboard_page_returns (year : Z) (starting_balance : money)
    (s : SessionState) (c : clock) :
  exists d c1, dashboard_page year starting_balance s c = Some (d, c1).
Proof.
  unfold dashboard_page.
  destruct (years_available s c) as [years c1].
  rewrite monthly_aggregation_keys. cbn [bind_opt].
  unfold totals_from_monthly.
  match goal with
  | |- context [net_month ?d ?cr] =>
      destruct (net_month_of_twelve d cr
                  (length_map _ month_numbers) (length_map _ month_numbers))
        as (net & Hnet & _)
  end.
  rewrite Hnet. cbn [bind_opt]. do 2 eexists. reflexivity.
Qed.

Lemma page_add_vehicle_reachable (submitted : bool) (b m : string) (y : Z)
    (p e : money) (s : SessionState) (c : clock) :
  reachable s ->
  reachable (fst (fst (page_add_vehicle submitted b m y p e s c))).
Proof.
  intros Hs. unfold page_add_vehicle.
  destruct submitted; [|exact Hs].
  destruct (py_not b || py_not m); [exact Hs|].
  exact (reachable_step (AddVehicle b m y p e) s c Hs).
Qed.

Lemma page_sell_vehicle_reachable (submitted : bool) (vid : Z) (n : string)
    (p : money) (s : SessionState) (c : clock) :
  reachable s ->
  reachable (fst (fst (page_sell_vehicle submitted vid n p s c))).
Proof.
  intros Hs. unfold page_sell_vehicle.
  destruct submitted; [|exact Hs].
  destruct (py_not n); [exact Hs|].
  pose proof (reachable_step (SellVehicle vid n p) s c Hs) as H.
  unfold next_state, step in H.
  destruct (sell_vehicle vid n p s c) as [[s1 nt] c1]. exact H.
Qed.

Lemma page_expenses_reachable (submitted : bool) (d : string) (x : money)
    (s : SessionState) (c : clock) :
  reachable s ->
  reachable (fst (fst (page_expenses submitted d x s c))).
Proof.
  intros Hs. unfold page_expenses.
  destruct submitted; [|exact Hs].
  destruct (py_not d); [exact Hs|].
  exact (reachable_step (AddExpense d x) s c Hs).
Qed.

Lemma main_runs (q : request) (r : RawSession) (c : clock) :
  reachable (init_state r) ->
  exists s1 c1, main q r c = Some (stored s1, c1) /\ reachable s1.
Proof.
  intros Hr. destruct q as [y b | sub b m y p e | | cl vid | sub vid n p
                           | | sub d x | ]; unfold main.
  - destruct (dashboard_page_returns y b (init_state r) c) as (d & c1 & H).
    rewrite H. cbn [bind_opt]. exists (init_state r), c1. auto.
  - cbn [utcnow].
    pose proof (page_add_vehicle_reachable sub b m y p e (init_state r)
                  (fun n => c (S n)) Hr) as H.
    destruct (page_add_vehicle sub b m y p e (init_state r)
                (fun n => c (S n))) as [[s1 nt] c1].
    exists s1, c1. split; [reflexivity | exact H].
  - exists (init_state r), c. auto.
  - exists (init_state r), c. auto.
  - pose proof (page_sell_vehicle_reachable sub vid n p (init_state r) c Hr)
      as H.
    destruct (page_sell_vehicle sub vid n p (init_state r) c)
      as [[s1 nt] c1].
    exists s1, c1. split; [reflexivity | exact H].
  - exists (init_state r), c. auto.
  - pose proof (page_expenses_reachable sub d x (init_state r) c Hr) as H.
    destruct (page_expenses sub d x (init_state r) c) as [[s1 nt] c1].
    exists s1, c1. split; [reflexivity | exact H].
  - exists (init_state r), c. auto.
Qed.

(** However a user clicks through the pages, every script run completes and
    the session store stays one the three operations can build: starting
    from a store [init_state] finds reachable, a session of any length ends
    in such a store, so every invariant of reachable stores holds throughout
    a session.  In particular running [init_state] at the start of each run
    never resets what the session holds. *)
Theorem session_stays_reachable (reqs : list request) (r : RawSession)
    (c : clock) :
  reachable (init_state r) ->
  exists r' c', session reqs r c = Some (r', c')
    /\ reachable (init_state r').
Proof.
  revert r c. induction reqs as [|q rest IH]; intros r c Hr.
  - exists r, c. auto.
  - cbn [session].
    destruct (main_runs q r c Hr) as (s1 & c1 & Hmain & Hs1).
    rewrite Hmain. cbn [bind_opt].
    apply IH. rewrite init_state_again. exact Hs1.
Qed.

End Runs.

Lemma session_stays_reachable_witness :
  reachable (lib := py_datetime) (init_state empty_session)
  /\ exists r' c',
       session (lib := py_datetime) busy_day empty_session mid_january
       = Some (r', c')
       /\ reachable (lib := py_datetime) (init_state r').
Proof.
  split; [apply reachable_init|].
  exact (session_stays_reachable (lib := py_datetime) busy_day empty_session
           mid_january reachable_init).
Defined.

(** The session at the counter ends with the store of the scenario: the sale
    with the empty name was turned away, the second one went through. *)
Example busy_day_store :
  option_map (fun rc => init_state (fst rc))
    (session (lib := py_datetime) busy_day empty_session mid_january)
  = Some (fst (fst (run (lib := py_datetime) scenario initial_state
                      mid_january))).
Proof. vm_compute. reflexivity. Qed.

(** ** When a sale goes through *)

Section Sale.

Context {lib : DatetimeLib}.


End Sale.


(** * The ledger in any arithmetic *)

Section LedgerFacts.

Context {ar : Arithmetic} {lib : DatetimeLib}.

Lemma ledger_list_iadd_month (l : list num) (m : Z) (x : num) :
  List.length l = 12%nat -> 1 <= m <= 12 ->
  exists l', Ledger.list_iadd l (m - 1) x = Some l'
    /\ List.length l' = 12%nat
    /\ forall k, 1 <= k <= 12 ->
         Ledger.bucket l' k
         = if k =? m then num_add (Ledger.bucket l k) x else Ledger.bucket l k.
Proof.
  intros Hl Hm. unfold Ledger.list_iadd. rewrite Hl.
  replace (m - 1 <? 0) with false by (symmetry; apply Z.ltb_ge; lia).
  replace ((0 <=? m - 1) && (m - 1 <? Z.of_nat 12)) with true
    by (symmetry; apply andb_true_iff; split;
        [apply Z.leb_le | apply Z.ltb_lt]; lia).
  eexists; split; [reflexivity|]. split.
  - rewrite list_alter_length. exact Hl.
  - intros k Hk. unfold Ledger.bucket. rewrite list_alter_nth by lia.
    destruct (Z.eqb_spec k m) as [->|Hne].
    + rewrite Nat.eqb_refl. reflexivity.
    + replace (Nat.eqb (Z.to_nat (k - 1)) (Z.to_nat (m - 1))) with false;
        [reflexivity|].
      symmetry. apply Nat.eqb_neq. lia.
Qed.

Lemma ledger_twelve_buckets (l : list num) :
  List.length l = 12%nat -> l = map (Ledger.bucket l) month_numbers.
Proof.
  intros H.
  do 12 (destruct l as [|? l]; [discriminate H|]).
  destruct l; [reflexivity | discriminate H].
Qed.

Lemma ledger_bucket_zeros (m : Z) :
  1 <= m <= 12 -> Ledger.bucket (repeat num_zero 12) m = num_zero.
Proof.
  intros Hm. unfold Ledger.bucket.
  assert (H : In (nth (Z.to_nat (m - 1)) (repeat num_zero 12) num_zero)
                (repeat num_zero 12)).
  { apply nth_In. rewrite repeat_length. lia. }
  apply repeat_spec in H. exact H.
Qed.

(** What one record does to the buckets: the one of its month, when its key
    lies in the year, takes its amount on top; all others are left alone. *)
Lemma ledger_accumulate_step (year : Z) (k : Z * Z) (a : num)
    (months : list num) :
  List.length months = 12%nat -> 1 <= snd k <= 12 ->
  exists months1,
    (if fst k =? year then Ledger.list_iadd months (snd k - 1) a
     else Some months) = Some months1
    /\ List.length months1 = 12%nat
    /\ forall m (ks : list (Z * Z)) (rest : list num), 1 <= m <= 12 ->
         fold_left num_add (Ledger.amounts_in year m (k :: ks) (a :: rest))
           (Ledger.bucket months m)
         = fold_left num_add (Ledger.amounts_in year m ks rest)
             (Ledger.bucket months1 m).
Proof.
  intros Hlen Hk. cbn [Ledger.amounts_in].
  destruct (fst k =? year).
  - destruct (ledger_list_iadd_month months (snd k) a Hlen Hk)
      as (months1 & Hadd & Hlen1 & Hget).
    exists months1. split; [exact Hadd|]. split; [exact Hlen1|].
    intros m ks rest Hm. rewrite (Hget m Hm). cbn [andb].
    rewrite (Z.eqb_sym m (snd k)).
    destruct (snd k =? m); reflexivity.
  - exists months. split; [reflexivity|]. split; [exact Hlen|].
    intros m ks rest _. reflexivity.
Qed.

(** One loop of the aggregator over twelve buckets: it never fails, and each
    bucket ends as what it held with the amounts keyed to its month added to
    it one after another, in the order of the records. *)
Lemma ledger_accumulate_running {A : Type} (get_date : A -> string)
    (get_amount : A -> num) (year : Z) (records : list A) :
  forall (months : list num) (c : clock),
  List.length months = 12%nat ->
  exists months',
    Ledger.accumulate get_date get_amount year records months c
      = Some (months', snd (Ledger.keys_of_dates (map get_date records) c))
    /\ List.length months' = 12%nat
    /\ forall m, 1 <= m <= 12 ->
         Ledger.bucket months' m
         = fold_left num_add
             (Ledger.amounts_in year m
                (fst (Ledger.keys_of_dates (map get_date records) c))
                (map get_amount records))
             (Ledger.bucket months m).
Proof.
  induction records as [|r rest IH]; intros months c Hlen.
  - exists months. repeat split; auto.
  - cbn [Ledger.accumulate map Ledger.keys_of_dates].
    unfold month_key_from_iso.
    destruct (fromisoformat (get_date r)) as [dt|].
    + destruct (ledger_accumulate_step year
                  (datetime.year dt, datetime.month dt) (get_amount r) months
                  Hlen (datetime_month_range dt))
        as (months1 & Hstep & Hlen1 & Hfold).
      cbn [fst snd] in Hstep.
      destruct (IH months1 c Hlen1) as (months' & Hacc & Hlen' & Hget).
      destruct (Ledger.keys_of_dates (map get_date rest) c) as [ks c2].
      cbn [fst snd] in *. exists months'.
      split; [|split; [exact Hlen'|]].
      * destruct (datetime.year dt =? year).
        -- rewrite Hstep. exact Hacc.
        -- injection Hstep as <-. exact Hacc.
      * intros m Hm. rewrite (Hget m Hm). symmetry. apply Hfold. exact Hm.
    + cbn [utcnow].
      destruct (ledger_accumulate_step year
                  (datetime.year (c 0%nat), datetime.month (c 0%nat))
                  (get_amount r) months Hlen (datetime_month_range (c 0%nat)))
        as (months1 & Hstep & Hlen1 & Hfold).
      cbn [fst snd] in Hstep.
      destruct (IH months1 (fun n => c (S n)) Hlen1)
        as (months' & Hacc & Hlen' & Hget).
      destruct (Ledger.keys_of_dates (map get_date rest) (fun n => c (S n)))
        as [ks c2].
      cbn [fst snd] in *. exists months'.
      split; [|split; [exact Hlen'|]].
      * destruct (datetime.year (c 0%nat) =? year).
        -- rewrite Hstep. exact Hacc.
        -- injection Hstep as <-. exact Hacc.
      * intros m Hm. rewrite (Hget m Hm). symmetry. apply Hfold. exact Hm.
Qed.

(** C1 (as amended).  For every arithmetic, store, year and clock the
    aggregator returns two arrays of twelve buckets, debit first, that start
    from zero.  The credit of month [m] is the running total, from zero and
    in the order of the list, of the sale prices of the sales whose month key
    is [(year, m)].  The debit of month [m] is one running total: from zero,
    the expense amounts whose month key is [(year, m)] in their order,
    followed by the purchase amounts whose month key is [(year, m)] in their
    order.  A month without such records holds zero.  The month key of a
    record is the year and month its date parses to, and the year and month
    of the next clock reading when the date does not parse. *)
Theorem ledger_monthly_aggregation_running_totals (year : Z)
    (s : Ledger.SessionState) (c : clock) :
  let ks := Ledger.keys_of_dates
              (map Ledger.SaleRecord.date (Ledger.sales s)) c in
  let ke := Ledger.keys_of_dates
              (map Ledger.ExpenseRecord.date (Ledger.expenses s)) (snd ks) in
  let kp := Ledger.keys_of_dates
              (map Ledger.PurchaseEvent.date (Ledger.purchase_history s))
              (snd ke) in
  exists debit_month credit_month,
    Ledger.monthly_aggregation_for_year year s c
      = Some ((debit_month, credit_month), snd kp)
    /\ List.length debit_month = 12%nat
    /\ List.length credit_month = 12%nat
    /\ credit_month
       = map (fun m =>
                Ledger.running_total
                  (Ledger.amounts_in year m (fst ks)
                     (map Ledger.SaleRecord.sale_price (Ledger.sales s))))
           month_numbers
    /\ debit_month
       = map (fun m =>
                Ledger.running_total
                  (Ledger.amounts_in year m (fst ke)
                     (map Ledger.ExpenseRecord.amount (Ledger.expenses s))
                   ++ Ledger.amounts_in year m (fst kp)
                        (map Ledger.PurchaseEvent.amount
                           (Ledger.purchase_history s))))
           month_numbers.
Proof.
  intros ks ke kp. unfold Ledger.monthly_aggregation_for_year.
  destruct (ledger_accumulate_running Ledger.SaleRecord.date
              Ledger.SaleRecord.sale_price year (Ledger.sales s)
              (repeat num_zero 12) c (repeat_length num_zero 12))
    as (credit & Hc & Hclen & Hcget).
  rewrite Hc. cbn [bind_opt]. fold ks.
  destruct (ledger_accumulate_running Ledger.ExpenseRecord.date
              Ledger.ExpenseRecord.amount year (Ledger.expenses s)
              (repeat num_zero 12) (snd ks) (repeat_length num_zero 12))
    as (debit1 & Hd1 & Hd1len & Hd1get).
  rewrite Hd1. cbn [bind_opt]. fold ke.
  destruct (ledger_accumulate_running Ledger.PurchaseEvent.date
              Ledger.PurchaseEvent.amount year (Ledger.purchase_history s)
              debit1 (snd ke) Hd1len)
    as (debit & Hd & Hdlen & Hdget).
  rewrite Hd. cbn [bind_opt]. fold kp.
  exists debit, credit.
  split; [reflexivity|]. split; [exact Hdlen|]. split; [exact Hclen|].
  split.
  - rewrite (ledger_twelve_buckets credit Hclen) at 1. apply map_ext_in.
    intros m Hm. apply month_numbers_range in Hm.
    rewrite (Hcget m Hm), (ledger_bucket_zeros m Hm). reflexivity.
  - rewrite (ledger_twelve_buckets debit Hdlen) at 1. apply map_ext_in.
    intros m Hm. apply month_numbers_range in Hm.
    rewrite (Hdget m Hm), (Hd1get m Hm), (ledger_bucket_zeros m Hm).
    unfold Ledger.running_total. rewrite fold_left_app. reflexivity.
Qed.

(** C2.  For every arithmetic and store the financial summary takes the
    revenue as the running total of the sale prices of all sales and the
    other expenses as the running total of the amounts of all expenses,
    whatever their dates, and the net profit or loss as the revenue minus the
    sum of the cumulative purchase cost and the other expenses.  The status
    follows the sign of that number as it was computed, with no tolerance:
    PROFIT when it is above zero, LOSS when it is below zero, BREAK-EVEN when
    it equals zero, and BREAK-EVEN as well when it is neither above nor below
    zero, which is the case of a NaN. *)
Theorem ledger_financial_summary (s : Ledger.SessionState) :
  Ledger.cum_purchase (Ledger.page_financial_summary s)
    = Ledger.cumulative_purchase_cost s
  /\ Ledger.revenue (Ledger.page_financial_summary s)
     = Ledger.running_total
         (map Ledger.SaleRecord.sale_price (Ledger.sales s))
  /\ Ledger.other_expenses (Ledger.page_financial_summary s)
     = Ledger.running_total
         (map Ledger.ExpenseRecord.amount (Ledger.expenses s))
  /\ Ledger.profit (Ledger.page_financial_summary s)
     = num_sub (Ledger.revenue (Ledger.page_financial_summary s))
         (num_add (Ledger.cum_purchase (Ledger.page_financial_summary s))
            (Ledger.other_expenses (Ledger.page_financial_summary s)))
  /\ (num_lt num_zero (Ledger.profit (Ledger.page_financial_summary s)) = true ->
      Ledger.status (Ledger.page_financial_summary s)
      = st_success "Status: PROFIT")
  /\ (num_lt (Ledger.profit (Ledger.page_financial_summary s)) num_zero = true ->
      Ledger.status (Ledger.page_financial_summary s)
      = st_error "Status: LOSS")
  /\ (num_eq (Ledger.profit (Ledger.page_financial_summary s)) num_zero = true ->
      Ledger.status (Ledger.page_financial_summary s)
      = st_info "Status: BREAK-EVEN")
  /\ (num_lt num_zero (Ledger.profit (Ledger.page_financial_summary s)) = false ->
      num_lt (Ledger.profit (Ledger.page_financial_summary s)) num_zero = false ->
      Ledger.status (Ledger.page_financial_summary s)
      = st_info "Status: BREAK-EVEN").
Proof.
  unfold Ledger.page_financial_summary.
  cbn [Ledger.cum_purchase Ledger.revenue Ledger.other_expenses Ledger.profit
       Ledger.status].
  set (p := num_sub _ _).
  split; [reflexivity|]. split; [reflexivity|]. split; [reflexivity|].
  split; [reflexivity|]. split; [|split; [|split]].
  - intros ->. reflexivity.
  - intros H. rewrite (lt_zero_asym p H), H. reflexivity.
  - intros H. destruct (eq_zero_not_lt p H) as [-> ->]. reflexivity.
  - intros -> ->. reflexivity.
Qed.

End LedgerFacts.

(** ** The aggregator against the sums of the specification *)

Section LedgerParsedDates.

Context {ar : Arithmetic} {lib : DatetimeLib}.

(** Dates that all parse leave the clock unread, and the amounts keyed to a
    month are those of the records whose date parses to it. *)
Lemma ledger_amounts_of_parsed {A : Type} (get_date : A -> string)
    (get_amount : A -> num) (year : Z) (records : list A) (c : clock) :
  forallb (fun r => parses (get_date r)) records = true ->
  snd (Ledger.keys_of_dates (map get_date records) c) = c
  /\ forall m,
       Ledger.amounts_in year m
         (fst (Ledger.keys_of_dates (map get_date records) c))
         (map get_amount records)
       = map get_amount
           (filter (fun r => parses_to year m (get_date r)) records).
Proof.
  induction records as [|r rest IH]; intros H.
  - split; [reflexivity | intros m; reflexivity].
  - cbn [forallb] in H. apply andb_true_iff in H. destruct H as [Hr Hrest].
    destruct (IH Hrest) as [Hc Hm].
    cbn [map Ledger.keys_of_dates filter]. unfold parses, parses_to in *.
    destruct (fromisoformat (get_date r)) as [dt|]; [|discriminate Hr].
    destruct (Ledger.keys_of_dates (map get_date rest) c) as [ks c1].
    cbn [fst snd] in *. split; [exact Hc|].
    intros m. cbn [Ledger.amounts_in]. unfold in_month. rewrite Hm.
    destruct ((fst (datetime.year dt, datetime.month dt) =? year)
              && (snd (datetime.year dt, datetime.month dt) =? m));
      reflexivity.
Qed.

(** In a store whose dates all parse the credit of a month is the sum the
    specification names, and the debit is the running total of the expense
    amounts of the month followed by its purchase amounts; the clock is not
    read. *)
Lemma ledger_aggregation_when_dates_parse (year : Z)
    (s : Ledger.SessionState) (c : clock) :
  Ledger.dates_parse s = true ->
  Ledger.monthly_aggregation_for_year year s c
  = Some
      ((map (fun m =>
               Ledger.running_total
                 (map Ledger.ExpenseRecord.amount
                    (filter
                       (fun r => parses_to year m (Ledger.ExpenseRecord.date r))
                       (Ledger.expenses s))
                  ++ map Ledger.PurchaseEvent.amount
                       (filter
                          (fun r =>
                             parses_to year m (Ledger.PurchaseEvent.date r))
                          (Ledger.purchase_history s))))
          month_numbers,
        map (Ledger.credit_as_claimed year s) month_numbers),
       c).
Proof.
  unfold Ledger.dates_parse. intros H.
  apply andb_true_iff in H. destruct H as [H Hp].
  apply andb_true_iff in H. destruct H as [Hs He].
  destruct (ledger_accumulate_running Ledger.SaleRecord.date
              Ledger.SaleRecord.sale_price year (Ledger.sales s)
              (repeat num_zero 12) c (repeat_length num_zero 12))
    as (credit & Hc & Hclen & Hcget).
  destruct (ledger_amounts_of_parsed Ledger.SaleRecord.date
              Ledger.SaleRecord.sale_price year (Ledger.sales s) c Hs)
    as [Hsc Hsm].
  rewrite Hsc in Hc.
  destruct (ledger_accumulate_running Ledger.ExpenseRecord.date
              Ledger.ExpenseRecord.amount year (Ledger.expenses s)
              (repeat num_zero 12) c (repeat_length num_zero 12))
    as (debit1 & Hd1 & Hd1len & Hd1get).
  destruct (ledger_amounts_of_parsed Ledger.ExpenseRecord.date
              Ledger.ExpenseRecord.amount year (Ledger.expenses s) c He)
    as [Hec Hem].
  rewrite Hec in Hd1.
  destruct (ledger_accumulate_running Ledger.PurchaseEvent.date
              Ledger.PurchaseEvent.amount year (Ledger.purchase_history s)
              debit1 c Hd1len)
    as (debit & Hd & Hdlen & Hdget).
  destruct (ledger_amounts_of_parsed Ledger.PurchaseEvent.date
              Ledger.PurchaseEvent.amount year (Ledger.purchase_history s) c
              Hp)
    as [Hpc Hpm].
  rewrite Hpc in Hd.
  unfold Ledger.monthly_aggregation_for_year.
  rewrite Hc. cbn [bind_opt]. rewrite Hd1. cbn [bind_opt].
  rewrite Hd. cbn [bind_opt].
  f_equal. f_equal. f_equal.
  - rewrite (ledger_twelve_buckets debit Hdlen) at 1. apply map_ext_in.
    intros m Hm. apply month_numbers_range in Hm.
    rewrite (Hdget m Hm), (Hd1get m Hm), (ledger_bucket_zeros m Hm).
    rewrite Hem, Hpm. unfold Ledger.running_total.
    rewrite fold_left_app. reflexivity.
  - rewrite (ledger_twelve_buckets credit Hclen) at 1. apply map_ext_in.
    intros m Hm. apply month_numbers_range in Hm.
    rewrite (Hcget m Hm), (ledger_bucket_zeros m Hm), Hsm. reflexivity.
Qed.

End LedgerParsedDates.

(** In exact arithmetic a running total over two lists is the sum of their
    totals, so there the debit of a store whose dates parse is the sum of the
    two sums. *)
Lemma exact_running_total_app (l1 l2 : list Z) :
  Ledger.running_total (ar := exact_arithmetic) (l1 ++ l2)
  = Ledger.running_total (ar := exact_arithmetic) l1
    + Ledger.running_total (ar := exact_arithmetic) l2.
Proof.
  unfold Ledger.running_total. cbn [num num_add num_zero exact_arithmetic].
  rewrite fold_left_app.
  generalize (fold_left Z.add l1 0). intros a.
  revert a. induction l2 as [|x l2 IH]; intros a; cbn [fold_left].
  - lia.
  - rewrite IH, (IH (0 + x)). lia.
Qed.

(** A record with a date that is no date is credited to the month of the
    clock, though its date parses to no month.  No operation of the program
    writes such a date: each stamps its record with [isoformat] of the
    clock. *)
Lemma ledger_undated_sale_is_credited_to_now :
  option_map fst
    (Ledger.monthly_aggregation_for_year (ar := exact_arithmetic)
       (lib := py_datetime) 2024 ledger_with_undated_sale over_midnight)
  = Some ([0; 0; 0; 0; 0; 0; 0; 0; 0; 0; 0; 0],
          [5; 0; 0; 0; 0; 0; 0; 0; 0; 0; 0; 0])
  /\ Ledger.credit_as_claimed (ar := exact_arithmetic) (lib := py_datetime)
       2024 ledger_with_undated_sale 1 = 0.
Proof. split; vm_compute; reflexivity. Qed.

(** C1, counterexample.  A session that records an expense of 0.1 and then
    buys two vehicles for 0.2 and 0.3, all in January 2024, holds dates that
    all parse.  The aggregator adds the three amounts to one bucket in turn,
    (0.1 + 0.2) + 0.3, which in binary64 is 0.6000000000000001; the sum of
    the expenses plus the sum of the purchases, 0.1 + (0.2 + 0.3), is 0.6.
    The two are different numbers. *)
Lemma debit_is_not_the_sum_of_two_sums :
  option_map fst
    (Ledger.monthly_aggregation_for_year (ar := binary64)
       (lib := py_datetime) 2024 store_0_1_0_2_0_3 mid_january)
  = Some ([0x1.3333333333334p-1; 0; 0; 0; 0; 0; 0; 0; 0; 0; 0; 0],
          [0; 0; 0; 0; 0; 0; 0; 0; 0; 0; 0; 0])%float
  /\ Ledger.debit_as_claimed (ar := binary64) (lib := py_datetime)
       2024 store_0_1_0_2_0_3 1 = 0x1.3333333333333p-1%float
  /\ num_eq (Arithmetic := binary64) 0x1.3333333333334p-1%float
       (Ledger.debit_as_claimed (ar := binary64) (lib := py_datetime)
          2024 store_0_1_0_2_0_3 1) = false
  /\ Ledger.dates_parse (lib := py_datetime) store_0_1_0_2_0_3 = true.
Proof. repeat split; vm_compute; reflexivity. Qed.

(** The summary in binary64: a sale of 0.3 against expenses of 0.1 and 0.2
    is a LOSS of 2^-54, since 0.1 + 0.2 rounds above 0.3; revenue and cost
    that both overflow give NaN and BREAK-EVEN; the scenario of the
    specification gives 850 and PROFIT. *)
Lemma ledger_financial_summary_witness :
  (Ledger.profit (Ledger.page_financial_summary store_0_3_against_0_1_0_2)
     = (-0x1p-54)%float
   /\ Ledger.status (Ledger.page_financial_summary store_0_3_against_0_1_0_2)
      = st_error "Status: LOSS")
  /\ (PrimFloat.is_nan
        (Ledger.profit (Ledger.page_financial_summary store_overflowing))
      = true
      /\ Ledger.status (Ledger.page_financial_summary store_overflowing)
         = st_info "Status: BREAK-EVEN")
  /\ (Ledger.profit (Ledger.page_financial_summary scenario_in_binary64)
      = 850%float
      /\ Ledger.status (Ledger.page_financial_summary scenario_in_binary64)
         = st_success "Status: PROFIT").
Proof.
  destruct (ledger_financial_summary (ar := binary64)
              store_0_3_against_0_1_0_2)
    as (_ & _ & _ & _ & _ & Hloss & _ & _).
  destruct (ledger_financial_summary (ar := binary64) store_overflowing)
    as (_ & _ & _ & _ & _ & _ & _ & Hnan).
  destruct (ledger_financial_summary (ar := binary64) scenario_in_binary64)
    as (_ & _ & _ & _ & Hprofit & _ & _ & _).
  split; [split|split; split].
  - vm_compute. reflexivity.
  - apply Hloss. vm_compute. reflexivity.
  - vm_compute. reflexivity.
  - apply Hnan; vm_compute; reflexivity.
  - vm_compute. reflexivity.
  - apply Hprofit. vm_compute. reflexivity.
Defined.

(** ** What the operations do to the histories and the buckets *)

Section LedgerPostings.

Context {ar : Arithmetic} {lib : DatetimeLib}.

Ltac ledger_fields :=
  cbn [Ledger.inventory Ledger.sales Ledger.expenses Ledger.purchase_history
       Ledger.next_vehicle_id Ledger.next_sale_id Ledger.next_expense_id
       Ledger.cumulative_purchase_cost Ledger.total_other_expenses
       fst snd utcnow].

Lemma ledger_bucket_of_months (f : Z -> num) (m : Z) :
  In m month_numbers -> Ledger.bucket (map f month_numbers) m = f m.
Proof.
  unfold month_numbers. cbn [In].
  intros H. repeat (destruct H as [<-|H]; [reflexivity|]). destruct H.
Qed.

Lemma ledger_running_total_snoc (l : list num) (x : num) :
  Ledger.running_total (l ++ [x]) = num_add (Ledger.running_total l) x.
Proof. unfold Ledger.running_total. rewrite fold_left_app. reflexivity. Qed.

(** The amounts of the records of a month, when one more record is put at
    the end of the list. *)
Lemma ledger_filter_snoc {A : Type} (f : A -> num) (p : A -> bool)
    (l : list A) (r : A) :
  map f (filter p (l ++ [r]))
  = map f (filter p l) ++ (if p r then [f r] else []).
Proof.
  rewrite filter_app, map_app. cbn [filter]. destruct (p r); reflexivity.
Qed.

Lemma ledger_sell_vehicle_histories (vid : Z) (customer_name : string)
    (sale_price : num) (s : Ledger.SessionState) (c : clock) :
  Ledger.expenses (fst (fst (Ledger.sell_vehicle vid customer_name sale_price s c)))
    = Ledger.expenses s
  /\ Ledger.purchase_history
       (fst (fst (Ledger.sell_vehicle vid customer_name sale_price s c)))
     = Ledger.purchase_history s
  /\ Ledger.cumulative_purchase_cost
       (fst (fst (Ledger.sell_vehicle vid customer_name sale_price s c)))
     = Ledger.cumulative_purchase_cost s
  /\ Ledger.sales (fst (fst (Ledger.sell_vehicle vid customer_name sale_price s c)))
     = match Ledger.find_vehicle_by_id vid s with
       | Some _ =>
           Ledger.sales s
           ++ [Ledger.SaleRecord.mk (Ledger.next_sale_id s) vid
                 (strip customer_name) sale_price
                 (isoformat (fst (utcnow c)))]
       | None => Ledger.sales s
       end.
Proof.
  unfold Ledger.sell_vehicle.
  destruct (Ledger.find_vehicle_by_id vid s); [|repeat split].
  cbn [utcnow].
  destruct (Ledger.remove_vehicle_by_id vid (Ledger.inventory s))
    as [[] inventory1]; ledger_fields; repeat split.
Qed.

Lemma ledger_step_dates_parse (a : Ledger.action) (s : Ledger.SessionState)
    (c : clock) :
  Ledger.dates_parse s = true ->
  parses (isoformat (fst (utcnow c))) = true ->
  Ledger.dates_parse (fst (fst (Ledger.step a s c))) = true.
Proof.
  unfold Ledger.dates_parse. intros H Hnow.
  apply andb_true_iff in H. destruct H as [H Hp].
  apply andb_true_iff in H. destruct H as [Hs He].
  destruct a as [b m y p e | vid n p | d x]; cbn [Ledger.step].
  - unfold Ledger.add_vehicle. ledger_fields.
    rewrite Hs, He, forallb_app, Hp. cbn [forallb Ledger.PurchaseEvent.date].
    cbn [utcnow fst] in Hnow. rewrite Hnow. reflexivity.
  - destruct (ledger_sell_vehicle_histories vid n p s c)
      as (-> & -> & _ & ->).
    rewrite He, Hp.
    destruct (Ledger.find_vehicle_by_id vid s); [|rewrite Hs; reflexivity].
    rewrite forallb_app, Hs. cbn [forallb Ledger.SaleRecord.date].
    rewrite Hnow. reflexivity.
  - unfold Ledger.add_expense. ledger_fields.
    rewrite Hs, Hp, forallb_app, He. cbn [forallb Ledger.ExpenseRecord.date].
    cbn [utcnow fst] in Hnow. rewrite Hnow. reflexivity.
Qed.

(** The three histories are append-only in any arithmetic: whatever
    operations follow, the sales, the expenses and the purchase events
    recorded so far stay where they are, unchanged, and the cumulative
    purchase cost is the earlier cost with the amounts of the purchases made
    since added to it one after another, in their order. *)
Theorem histories_append_only (acts : list Ledger.action) :
  forall (s : Ledger.SessionState) (c : clock),
  exists more_sales more_expenses more_purchases,
    Ledger.sales (fst (fst (Ledger.run acts s c)))
      = Ledger.sales s ++ more_sales
    /\ Ledger.expenses (fst (fst (Ledger.run acts s c)))
       = Ledger.expenses s ++ more_expenses
    /\ Ledger.purchase_history (fst (fst (Ledger.run acts s c)))
       = Ledger.purchase_history s ++ more_purchases
    /\ Ledger.cumulative_purchase_cost (fst (fst (Ledger.run acts s c)))
       = fold_left num_add (map Ledger.PurchaseEvent.amount more_purchases)
           (Ledger.cumulative_purchase_cost s).
Proof.
  induction acts as [|a rest IH]; intros s c.
  - exists [], [], []. cbn [Ledger.run fst]. rewrite !app_nil_r. repeat split.
  - cbn [Ledger.run].
    destruct (Ledger.step a s c) as [[s1 n] c1] eqn:Hstep.
    destruct (IH s1 c1) as (ms & me & mp & Hs & He & Hp & Hc).
    destruct (Ledger.run rest s1 c1) as [[s2 ns] c2]. cbn [fst] in *.
    assert (Hs1 : s1 = fst (fst (Ledger.step a s c)))
      by (rewrite Hstep; reflexivity).
    rewrite Hs, He, Hp, Hc, Hs1. clear.
    destruct a as [b m y p e | vid n p | d x]; cbn [Ledger.step].
    + unfold Ledger.add_vehicle. ledger_fields.
      exists ms, me,
        (Ledger.PurchaseEvent.mk p (isoformat (c 0%nat)) :: mp).
      rewrite <- app_assoc. repeat split.
    + destruct (ledger_sell_vehicle_histories vid n p s c)
        as (-> & -> & -> & ->).
      destruct (Ledger.find_vehicle_by_id vid s).
      * eexists (_ :: ms), me, mp. rewrite <- app_assoc. repeat split.
      * exists ms, me, mp. repeat split.
    + unfold Ledger.add_expense. ledger_fields.
      eexists ms, (_ :: me), mp. rewrite <- app_assoc. repeat split.
Qed.

(** In a store whose dates parse, an operation whose time stamp parses to
    [dt] touches at most one bucket of the arrays of any year, the one of the
    month of [dt] when [dt] lies in that year, and this in any arithmetic.  A
    purchase adds its price to what that debit bucket held and changes no
    credit; a sale that finds its vehicle adds its price to what that credit
    bucket held and changes no debit, so it never takes the purchase of its
    vehicle out of the debits; an expense changes no credit and no other
    debit bucket. *)
Theorem operation_posts_once (year : Z) (a : Ledger.action)
    (s : Ledger.SessionState) (c c0 : clock) (dt : datetime.t) :
  Ledger.dates_parse s = true ->
  fromisoformat (isoformat (fst (utcnow c))) = Some dt ->
  exists debit credit debit' credit',
    Ledger.monthly_aggregation_for_year year s c0 = Some ((debit, credit), c0)
    /\ Ledger.monthly_aggregation_for_year year
         (fst (fst (Ledger.step a s c))) c0
       = Some ((debit', credit'), c0)
    /\ forall m, In m month_numbers ->
       match a with
       | Ledger.AddVehicle _ _ _ p _ =>
           Ledger.bucket credit' m = Ledger.bucket credit m
           /\ Ledger.bucket debit' m
              = if in_month year m (datetime.year dt, datetime.month dt)
                then num_add (Ledger.bucket debit m) p
                else Ledger.bucket debit m
       | Ledger.SellVehicle vid _ p =>
           Ledger.bucket debit' m = Ledger.bucket debit m
           /\ Ledger.bucket credit' m
              = if in_month year m (datetime.year dt, datetime.month dt)
                then match Ledger.find_vehicle_by_id vid s with
                     | Some _ => num_add (Ledger.bucket credit m) p
                     | None => Ledger.bucket credit m
                     end
                else Ledger.bucket credit m
       | Ledger.AddExpense _ x =>
           Ledger.bucket credit' m = Ledger.bucket credit m
           /\ (in_month year m (datetime.year dt, datetime.month dt) = false ->
               Ledger.bucket debit' m = Ledger.bucket debit m)
       end.
Proof.
  intros Hd Hdt.
  assert (Hnow : parses (isoformat (fst (utcnow c))) = true)
    by (unfold parses; rewrite Hdt; reflexivity).
  pose proof (ledger_step_dates_parse a s c Hd Hnow) as Hd'.
  do 4 eexists.
  split; [apply (ledger_aggregation_when_dates_parse year s c0 Hd)|].
  split; [apply (ledger_aggregation_when_dates_parse year _ c0 Hd')|].
  intros m Hm. rewrite !(ledger_bucket_of_months _ m Hm).
  assert (Hto : parses_to year m (isoformat (fst (utcnow c)))
                = in_month year m (datetime.year dt, datetime.month dt))
    by (unfold parses_to; rewrite Hdt; reflexivity).
  unfold Ledger.credit_as_claimed.
  destruct a as [b mo y p e | vid n p | d x]; cbn [Ledger.step].
  - unfold Ledger.add_vehicle. ledger_fields. split; [reflexivity|].
    rewrite ledger_filter_snoc. cbn [Ledger.PurchaseEvent.date
                                     Ledger.PurchaseEvent.amount].
    cbn [utcnow fst] in Hto. rewrite Hto.
    destruct (in_month year m _).
    + rewrite app_assoc. apply ledger_running_total_snoc.
    + rewrite app_nil_r. reflexivity.
  - destruct (ledger_sell_vehicle_histories vid n p s c)
      as (-> & -> & _ & ->).
    split; [reflexivity|].
    destruct (Ledger.find_vehicle_by_id vid s).
    + rewrite ledger_filter_snoc. cbn [Ledger.SaleRecord.date
                                       Ledger.SaleRecord.sale_price].
      rewrite Hto. destruct (in_month year m _).
      * apply ledger_running_total_snoc.
      * rewrite app_nil_r. reflexivity.
    + destruct (in_month year m _); reflexivity.
  - unfold Ledger.add_expense. ledger_fields. split; [reflexivity|].
    intros Hout. rewrite ledger_filter_snoc.
    cbn [Ledger.ExpenseRecord.date Ledger.ExpenseRecord.amount].
    cbn [utcnow fst] in Hto. rewrite Hto, Hout, app_nil_r. reflexivity.
Qed.

End LedgerPostings.

Lemma operation_posts_once_witness :
  Ledger.dates_parse (lib := py_datetime) store_0_1_0_2_0_3 = true
  /\ fromisoformat (DatetimeLib := py_datetime)
       (isoformat (DatetimeLib := py_datetime) (fst (utcnow mid_january)))
     = Some (at_time 2024 1 15 10 30 0)
  /\ exists debit credit debit' credit',
       Ledger.monthly_aggregation_for_year (ar := binary64)
         (lib := py_datetime) 2024 store_0_1_0_2_0_3 over_midnight
         = Some ((debit, credit), over_midnight)
       /\ Ledger.monthly_aggregation_for_year (ar := binary64)
            (lib := py_datetime) 2024
            (fst (fst (Ledger.step (ar := binary64) (lib := py_datetime)
                         (Ledger.AddVehicle (ar := binary64)
                            "Ford" "Focus" 2018 f_0_1 f_0_2)
                         store_0_1_0_2_0_3 mid_january)))
            over_midnight
          = Some ((debit', credit'), over_midnight)
       /\ Ledger.bucket credit' 1 = Ledger.bucket credit 1
       /\ Ledger.bucket debit' 1
          = PrimFloat.add (Ledger.bucket debit 1) f_0_1.
Proof.
  split; [vm_compute; reflexivity|]. split; [vm_compute; reflexivity|].
  destruct (operation_posts_once (ar := binary64) (lib := py_datetime) 2024
              (Ledger.AddVehicle (ar := binary64) "Ford" "Focus" 2018
                 f_0_1 f_0_2)
              store_0_1_0_2_0_3 mid_january over_midnight
              (at_time 2024 1 15 10 30 0) eq_refl eq_refl)
    as (debit & credit & debit' & credit' & H1 & H2 & Hm).
  exists debit, credit, debit', credit'.
  split; [exact H1|]. split; [exact H2|].
  exact (Hm 1 (or_introl eq_refl)).
Defined.
